(** * The AutoModel SFT tutorial notebook (tutorials/llm/automodel/sft.ipynb)

    The notebook is a script over external libraries (Lightning, NeMo,
    transformers).  Its code cells are embedded as computations in a small
    monad: every call into a library is logged in order, may raise an
    exception chosen by the outside world, and otherwise returns a symbolic
    object, namely the record of the arguments it was constructed from. *)

From Stdlib Require Import ZArith String Ascii List.
From stdpp Require Import base option list strings gmap pretty.

Local Open Scope Z_scope.
Local Open Scope string_scope.
Local Open Scope list_scope.

(** ** Python values that only pass through the notebook *)

(** A float literal is never computed with: it is kept as written. *)
Inductive PyFloat := float_literal (src : string).

(** [torch.bfloat16], the only dtype the notebook names. *)
Inductive TorchDtype := bfloat16.

(** A raised exception: its class and its message. *)
Record PyExn := { exn_class : string; exn_msg : string }.

(** ** Objects of the external libraries

    Each object is identified with the arguments of the call that built it. *)

Record HFAutoModelForCausalLM := { hf_model_name : string }.

Record CheckpointIO := {
  cio_model : HFAutoModelForCausalLM;
  cio_adapter_only : bool }.

Inductive Strategy :=
| DDPStrategy (checkpoint_io : CheckpointIO)
| FSDP2Strategy (data_parallel_size tensor_parallel_size : Z)
                (checkpoint_io : CheckpointIO)
| SingleDeviceStrategy (device : string) (checkpoint_io : CheckpointIO).

Record WandbLogger := { wandb_project : string; wandb_run_name : string }.

Record JitConfig := {
  use_torch : bool;
  torch_kwargs : list (string * bool);
  use_thunder : bool }.

Inductive Callback :=
| JitTransform (config : JitConfig)
| ModelCheckpoint (every_n_train_steps : Z) (dirpath : string).

Record Trainer := {
  trainer_devices : Z;
  trainer_max_steps : Z;
  trainer_accelerator : string;
  trainer_strategy : Strategy;
  log_every_n_steps : Z;
  limit_val_batches : PyFloat;
  num_sanity_val_steps : Z;
  accumulate_grad_batches : Z;
  gradient_clip_val : PyFloat;
  use_distributed_sampler : bool;
  trainer_logger : option WandbLogger;
  trainer_callbacks : list Callback;
  trainer_precision : string }.

Record AutoTokenizer := { tokenizer_source : string }.

(** The arguments [squad] hands to the data module's constructor. *)
Record SquadDataModule := {
  dm_tokenizer : AutoTokenizer;
  dm_seq_length : Z;
  dm_micro_batch_size : Z;
  dm_global_batch_size : Z;
  dm_num_workers : Z;
  dm_dataset_kwargs : list (string * bool) }.

Record OptimConfig := { optim_lr : PyFloat }.
Inductive Optimizer := fdl_built (config : OptimConfig).

Record LoRA := { target_modules : list string; lora_dim : Z }.

Record PretrainedModel := { pretrained_path : string }.

Record Pipeline := {
  pipe_task : string;
  pipe_model : PretrainedModel;
  pipe_tokenizer : AutoTokenizer;
  pipe_torch_dtype : TorchDtype;
  pipe_device_map : string }.

(** *** What [_create_dataloader] sees

    The attributes the method reads from [self] (stored there by the parent
    class), the dataset it is given, and the loader it builds. *)

Inductive CollateFn := collate_fn_of (dataset_id : nat).

Record Dataset := { dataset_id : nat; collate_fn : CollateFn }.

Record DataModuleSelf := {
  num_workers : Z;
  pin_memory : bool;
  persistent_workers : bool;
  micro_batch_size : Z }.

Inductive PyValue :=
| PyInt (z : Z)
| PyBool (b : bool)
| PyStr (s : string)
| PyNone.

Record DataLoader := {
  dl_dataset : Dataset;
  dl_num_workers : Z;
  dl_pin_memory : bool;
  dl_persistent_workers : bool;
  dl_collate_fn : CollateFn;
  dl_batch_size : Z;
  dl_kwargs : list (string * PyValue) }.

(** ** Calls that leave the notebook

    One constructor per external callee, carrying the arguments as the
    notebook passes them. *)

Inductive Call :=
| call_environ_setitem (key value : string)
| call_environ_getitem (key : string)
| call_WandbLogger (l : WandbLogger)
| call_JitConfig (c : JitConfig)
| call_JitTransform (c : JitConfig)
| call_ModelCheckpoint (every_n_train_steps : Z) (dirpath : string)
| call_HFAutoModelForCausalLM (model_name : string)
| call_make_checkpoint_io (model : HFAutoModelForCausalLM) (adapter_only : bool)
| call_DDPStrategy (checkpoint_io : CheckpointIO)
| call_FSDP2Strategy (data_parallel_size tensor_parallel_size : Z)
                     (checkpoint_io : CheckpointIO)
| call_SingleDeviceStrategy (device : string) (checkpoint_io : CheckpointIO)
| call_Trainer (t : Trainer)
| call_configure_tokenizer (model_name : string)
| call_SquadDataModule (dm : SquadDataModule)
| call_DataLoader (dl : DataLoader)
| call_pytorch_adam_with_flat_lr (lr : PyFloat)
| call_fdl_build (c : OptimConfig)
| call_LoRA (l : LoRA)
| call_finetune (model : HFAutoModelForCausalLM) (data : SquadDataModule)
                (trainer : Trainer) (optim : Optimizer) (peft : option LoRA)
| call_AutoModelForCausalLM_from_pretrained (path : string)
| call_AutoTokenizer_from_pretrained (path : string)
| call_pipeline (p : Pipeline)
| call_pipe (p : Pipeline) (prompt : string)
| call_push_to_hub (model : PretrainedModel) (repo : string).

(** ** The outside world and the monad of notebook code *)

(** The world decides, from the calls made so far, whether the next call
    raises.  It also holds the directory name the checkpointing callback
    picks when it writes a checkpoint under [dirpath]. *)
Record World := {
  raises : list Call -> Call -> option PyExn;
  callback_subdir : string }.

Record State := {
  calls : list Call;
  environ : gmap string string }.

Inductive Outcome (A : Type) :=
| Returned (a : A)
| Raised (e : PyExn).
Arguments Returned {A} a.
Arguments Raised {A} e.

Definition M (A : Type) : Type := World -> State -> State * Outcome A.

#[global] Instance M_ret : MRet M := fun A a _ st => (st, Returned a).

#[global] Instance M_bind : MBind M := fun A B k m w st =>
  match m w st with
  | (st', Returned a) => k a w st'
  | (st', Raised e) => (st', Raised e)
  end.

(** [raise e]. *)
Definition raise {A} (e : PyExn) : M A := fun _ st => (st, Raised e).

(** [try: m except Exception as e: h e]. *)
Definition try_except {A} (m : M A) (h : PyExn -> M A) : M A := fun w st =>
  match m w st with
  | (st', Returned a) => (st', Returned a)
  | (st', Raised e) => h e w st'
  end.

(** A call into a library: logged, then it raises or returns [result]. *)
Definition ext {A} (c : Call) (result : A) : M A := fun w st =>
  let st' := {| calls := calls st ++ [c]; environ := environ st |} in
  match raises w (calls st) c with
  | Some e => (st', Raised e)
  | None => (st', Returned result)
  end.

Definition set_environ (key value : string) : M unit := fun _ st =>
  ({| calls := calls st; environ := <[key := value]> (environ st) |},
   Returned tt).

(** [os.environ[key] = value]. *)
Definition environ_setitem (key value : string) : M unit :=
  _ ← ext (call_environ_setitem key value) tt;
  set_environ key value.

(** [os.environ[key]]. *)
Definition environ_getitem (key : string) : M string := fun w st =>
  match ext (call_environ_getitem key) tt w st with
  | (st', Returned _) =>
      match environ st' !! key with
      | Some v => (st', Returned v)
      | None => (st', Raised {| exn_class := "KeyError"; exn_msg := key |})
      end
  | (st', Raised e) => (st', Raised e)
  end.

(** The world in which no library call raises. *)
Definition quiet : World :=
  {| raises := fun _ _ => None; callback_subdir := EmptyString |}.

Definition calm (w : World) : Prop := forall tr c, raises w tr c = None.

Definition init (env : gmap string string) : State :=
  {| calls := []; environ := env |}.

(** ** Cell: [make_strategy] *)

Definition make_checkpoint_io (model : HFAutoModelForCausalLM)
    (adapter_only : bool) : M CheckpointIO :=
  ext (call_make_checkpoint_io model adapter_only)
      {| cio_model := model; cio_adapter_only := adapter_only |}.

(** [adapter_only] is a keyword argument with default [False]: [None] stands
    for a call that omits it. *)
Definition make_strategy (strategy : string) (model : HFAutoModelForCausalLM)
    (devices num_nodes : Z) (adapter_only : option bool) : M Strategy :=
  let adapter_only := default false adapter_only in
  if String.eqb strategy "ddp" then
    cio ← make_checkpoint_io model adapter_only;
    ext (call_DDPStrategy cio) (DDPStrategy cio)
  else if String.eqb strategy "fsdp2" then
    cio ← make_checkpoint_io model adapter_only;
    ext (call_FSDP2Strategy (devices * num_nodes) 1 cio)
        (FSDP2Strategy (devices * num_nodes) 1 cio)
  else
    cio ← make_checkpoint_io model adapter_only;
    ext (call_SingleDeviceStrategy "cuda:0" cio)
        (SingleDeviceStrategy "cuda:0" cio).

(** ** [pathlib] and [str] of an integer, as far as the notebook uses them *)

Module pathlib.

Definition starts_with_sep (s : string) : bool :=
  match s with
  | String c _ => Ascii.eqb c "/"
  | EmptyString => false
  end.

Fixpoint ends_with_sep (s : string) : bool :=
  match s with
  | EmptyString => false
  | String c EmptyString => Ascii.eqb c "/"
  | String _ s' => ends_with_sep s'
  end.

(** [posixpath.join a b]. *)
Definition posixpath_join (a b : string) : string :=
  if starts_with_sep b then b
  else if String.eqb a EmptyString || ends_with_sep a then a +:+ b
  else a +:+ "/" +:+ b.

(** [s.split('/')]. *)
Fixpoint split_sep (s : string) : list string :=
  match s with
  | EmptyString => [EmptyString]
  | String c s' =>
      if Ascii.eqb c "/" then EmptyString :: split_sep s'
      else match split_sep s' with
           | x :: xs => String c x :: xs
           | [] => [String c EmptyString]
           end
  end.

(** [posixpath.splitroot], without the drive (always empty on POSIX):
    exactly two leading slashes are kept, any other number is one. *)
Definition splitroot (p : string) : string * string :=
  match p with
  | String c1 rest1 =>
      if Ascii.eqb c1 "/" then
        match rest1 with
        | String c2 rest2 =>
            if Ascii.eqb c2 "/" then
              match rest2 with
              | String c3 _ =>
                  if Ascii.eqb c3 "/" then ("/", rest1) else ("//", rest2)
              | EmptyString => ("//", rest2)
              end
            else ("/", rest1)
        | EmptyString => ("/", rest1)
        end
      else (EmptyString, p)
  | EmptyString => (EmptyString, p)
  end.

(** A pure path keeps the strings it was made from and is parsed when
    it is turned into a string. *)
Record PurePath := { raw_paths : list string }.

Definition Path (s : string) : PurePath := {| raw_paths := [s] |}.

(** [p / key]. *)
Definition truediv (p : PurePath) (key : string) : PurePath :=
  {| raw_paths := raw_paths p ++ [key] |}.

Definition joined (p : PurePath) : string :=
  match raw_paths p with
  | [] => EmptyString
  | a :: rest => foldl posixpath_join a rest
  end.

Definition is_part (x : string) : bool :=
  negb (String.eqb x EmptyString) && negb (String.eqb x ".").

Definition parts (p : PurePath) : list string :=
  filter (fun x => is_part x = true) (split_sep (snd (splitroot (joined p)))).

Definition root (p : PurePath) : string := fst (splitroot (joined p)).

(** [str(p)]. *)
Definition str (p : PurePath) : string :=
  match root p, parts p with
  | EmptyString, [] => "."
  | r, ps => r +:+ String.concat "/" ps
  end.

End pathlib.

(** [str(n)] for an [int], as an f-string field [{n}] formats it. *)
Definition str_int (n : Z) : string := pretty n.

(** ** Cell: the data module *)

(** *** The class statement *)










(** *** The method *)

(** The keywords the call to [DataLoader] spells out. *)
Definition explicit_keywords : list string :=
  ["num_workers"; "pin_memory"; "persistent_workers"; "collate_fn";
   "batch_size"].

(** A key of [**kwargs] that repeats a spelled-out keyword makes the call
    expression itself raise [TypeError]; it is the first such key, in the
    order of the dict, that the message names. *)
Definition duplicate_keyword (kwargs : list (string * PyValue))
    : option string :=
  fst <$> find (fun kv => existsb (String.eqb (fst kv)) explicit_keywords)
               kwargs.

(** [kwargs] lists the entries of the [**kwargs] dict in insertion order;
    what Python delivers there has distinct keys, none of them [self],
    [dataset] or [mode]. *)
Definition _create_dataloader (self : DataModuleSelf) (dataset : Dataset)
    (mode : string) (kwargs : list (string * PyValue)) : M DataLoader :=
  match duplicate_keyword kwargs with
  | Some k =>
      raise {| exn_class := "TypeError";
               exn_msg := "torch.utils.data.dataloader.DataLoader() got multiple values for keyword argument '"
                          +:+ k +:+ "'" |}
  | None =>
      let dl := {| dl_dataset := dataset;
                   dl_num_workers := num_workers self;
                   dl_pin_memory := pin_memory self;
                   dl_persistent_workers := persistent_workers self;
                   dl_collate_fn := collate_fn dataset;
                   dl_batch_size := micro_batch_size self;
                   dl_kwargs := kwargs |} in
      ext (call_DataLoader dl) dl
  end.

(** [squad(tokenizer, mbs=1, gbs=2)]. *)
Definition squad (tokenizer : AutoTokenizer) (mbs gbs : option Z)
    : M SquadDataModule :=
  let mbs := default 1 mbs in
  let gbs := default 2 gbs in
  let dm := {| dm_tokenizer := tokenizer;
               dm_seq_length := 512;
               dm_micro_batch_size := mbs;
               dm_global_batch_size := gbs;
               dm_num_workers := 0;
               dm_dataset_kwargs :=
                 [("sanity_check_dist_workers", false);
                  ("get_attention_mask_from_fusion", true)] |} in
  ext (call_SquadDataModule dm) dm.

(** ** Cell: parameters *)

Record Config := {
  model_name : string;
  strategy : string;
  max_steps : Z;
  accelerator : string;
  num_devices : Z;
  wandb_name : option string;
  use_torch_jit : bool;
  ckpt_folder : string }.

(** The values the notebook assigns. *)
Definition notebook_config : Config :=
  {| model_name := "meta-llama/Llama-3.2-1B";
     strategy := EmptyString;
     max_steps := 100;
     accelerator := "gpu";
     num_devices := 2;
     wandb_name := None;
     use_torch_jit := false;
     ckpt_folder := "/opt/checkpoints/automodel_experiments/" |}.

(** ** Cell: the hub token *)

Definition cell_token : M unit :=
  environ_setitem "HF_TOKEN" "<HF_TOKEN>".

(** ** Cell: training *)

Definition make_trainer (cfg : Config) (strategy : Strategy)
    (wandb : option WandbLogger) (callbacks : list Callback) : Trainer :=
  {| trainer_devices := num_devices cfg;
     trainer_max_steps := max_steps cfg;
     trainer_accelerator := "gpu";
     trainer_strategy := strategy;
     log_every_n_steps := 1;
     limit_val_batches := float_literal "0.0";
     num_sanity_val_steps := 0;
     accumulate_grad_batches := 1;
     gradient_clip_val := float_literal "1.0";
     use_distributed_sampler := false;
     trainer_logger := wandb;
     trainer_callbacks := callbacks;
     trainer_precision := "bf16" |}.

(** [llm.api.finetune(model=, data=, trainer=, optim=, peft=, log=None)];
    the keyword arguments are evaluated left to right. *)
Definition finetune (cfg : Config) (model : HFAutoModelForCausalLM)
    (trainer : Trainer) (peft : M (option LoRA)) : M unit :=
  tokenizer ← ext (call_configure_tokenizer (model_name cfg))
                  {| tokenizer_source := model_name cfg |};
  data ← squad tokenizer None (Some 1);
  let lr := float_literal "1e-5" in
  optim_cfg ← ext (call_pytorch_adam_with_flat_lr lr) {| optim_lr := lr |};
  optim ← ext (call_fdl_build optim_cfg) (fdl_built optim_cfg);
  peft ← peft;
  ext (call_finetune model data trainer optim peft) tt.

Definition cell_train (cfg : Config) : M (HFAutoModelForCausalLM * Trainer) :=
  wandb ← match wandb_name cfg with
          | Some name =>
              let l := {| wandb_project := "nemo_automodel";
                          wandb_run_name := name |} in
              l ← ext (call_WandbLogger l) l; mret (Some l)
          | None => mret None
          end;
  callbacks ← (if use_torch_jit cfg return M (list Callback) then
                 let c := {| use_torch := true;
                             torch_kwargs := [("dynamic", false)];
                             use_thunder := false |} in
                 jit_config ← ext (call_JitConfig c) c;
                 t ← ext (call_JitTransform jit_config)
                         (JitTransform jit_config);
                 mret [t]
               else mret []);
  ckpt ← ext (call_ModelCheckpoint (max_steps cfg `div` 2) (ckpt_folder cfg))
             (ModelCheckpoint (max_steps cfg `div` 2) (ckpt_folder cfg));
  let callbacks := callbacks ++ [ckpt] in
  model ← ext (call_HFAutoModelForCausalLM (model_name cfg))
              {| hf_model_name := model_name cfg |};
  strategy ← make_strategy (strategy cfg) model (num_devices cfg) 1 None;
  let t := make_trainer cfg strategy wandb callbacks in
  trainer ← ext (call_Trainer t) t;
  _ ← finetune cfg model trainer (mret None);
  mret (model, trainer).

(** ** Cell: the same call with a LoRA adapter *)

Definition cell_peft (cfg : Config) (model : HFAutoModelForCausalLM)
    (trainer : Trainer) : M unit :=
  finetune cfg model trainer
    (let l := {| target_modules := ["*_proj"]; lora_dim := 8 |} in
     l ← ext (call_LoRA l) l; mret (Some l)).

(** ** Cells: generation and publication *)

(** [Path(ckpt_folder) / f"default--val_loss=0.0000-epoch=1-step={max_steps}-last/hf_weights"] *)
Definition new_checkpoint (cfg : Config) : pathlib.PurePath :=
  pathlib.truediv (pathlib.Path (ckpt_folder cfg))
    ("default--val_loss=0.0000-epoch=1-step=" +:+ str_int (max_steps cfg)
     +:+ "-last/hf_weights").

Definition cell_generate (cfg : Config) : M unit :=
  let new_checkpoint := pathlib.str (new_checkpoint cfg) in
  model ← ext (call_AutoModelForCausalLM_from_pretrained new_checkpoint)
              {| pretrained_path := new_checkpoint |};
  tokenizer ← ext (call_AutoTokenizer_from_pretrained new_checkpoint)
                  {| tokenizer_source := new_checkpoint |};
  let p := {| pipe_task := "text-generation";
              pipe_model := model;
              pipe_tokenizer := tokenizer;
              pipe_torch_dtype := bfloat16;
              pipe_device_map := "auto" |} in
  pipe ← ext (call_pipeline p) p;
  ext (call_pipe pipe "The key to life is") tt.

Definition cell_publish (cfg : Config) : M unit :=
  let new_checkpoint := pathlib.str (new_checkpoint cfg) in
  model ← ext (call_AutoModelForCausalLM_from_pretrained new_checkpoint)
              {| pretrained_path := new_checkpoint |};
  ext (call_push_to_hub model "<account/your-hf-repo>") tt.

(** ** The notebook, its cells run top to bottom *)

Definition notebook (cfg : Config) : M unit :=
  _ ← cell_token;
  '(model, trainer) ← cell_train cfg;
  _ ← cell_peft cfg model trainer;
  _ ← cell_generate cfg;
  cell_publish cfg.

Definition run (cfg : Config) (w : World) (env : gmap string string)
    : State * Outcome unit :=
  notebook cfg w (init env).

(** * Vocabulary of the properties *)

(** ** Strategies *)

Definition strategy_checkpoint_io (s : Strategy) : CheckpointIO :=
  match s with
  | DDPStrategy cio | FSDP2Strategy _ _ cio | SingleDeviceStrategy _ cio => cio
  end.

(** The library call that builds a given strategy object. *)
Definition strategy_call (s : Strategy) : Call :=
  match s with
  | DDPStrategy cio => call_DDPStrategy cio
  | FSDP2Strategy dp tp cio => call_FSDP2Strategy dp tp cio
  | SingleDeviceStrategy dev cio => call_SingleDeviceStrategy dev cio
  end.

(** ** Stages of the script *)

Inductive Stage :=
| ConstructModel
| ConstructStrategy
| ConstructTrainer
| Finetune (with_peft : bool)
| Reload
| Inference
| PushToHub.

Definition stage (c : Call) : option Stage :=
  match c with
  | call_HFAutoModelForCausalLM _ => Some ConstructModel
  | call_DDPStrategy _ | call_FSDP2Strategy _ _ _
  | call_SingleDeviceStrategy _ _ => Some ConstructStrategy
  | call_Trainer _ => Some ConstructTrainer
  | call_finetune _ _ _ _ peft => Some (Finetune (bool_decide (is_Some peft)))
  | call_AutoModelForCausalLM_from_pretrained _
  | call_AutoTokenizer_from_pretrained _ => Some Reload
  | call_pipeline _ | call_pipe _ _ => Some Inference
  | call_push_to_hub _ _ => Some PushToHub
  | _ => None
  end.

(** [consumes earlier c]: the objects call [c] is given were built by calls
    among [earlier]. *)
Definition consumes (earlier : list Call) (c : Call) : Prop :=
  match c with
  | call_DDPStrategy cio | call_FSDP2Strategy _ _ cio
  | call_SingleDeviceStrategy _ cio =>
      In (call_HFAutoModelForCausalLM (hf_model_name (cio_model cio))) earlier
  | call_Trainer t => In (strategy_call (trainer_strategy t)) earlier
  | call_finetune model data trainer _ peft =>
      In (call_HFAutoModelForCausalLM (hf_model_name model)) earlier /\
      In (call_SquadDataModule data) earlier /\
      In (call_Trainer trainer) earlier /\
      match peft with
      | Some l => In (call_LoRA l) earlier
      | None => True
      end
  | call_pipeline p =>
      In (call_AutoModelForCausalLM_from_pretrained
            (pretrained_path (pipe_model p))) earlier
  | call_pipe p _ => In (call_pipeline p) earlier
  | call_push_to_hub model _ =>
      In (call_AutoModelForCausalLM_from_pretrained (pretrained_path model))
         earlier
  | _ => True
  end.

(** Every call of [tr], made after the calls [earlier], consumes only what
    was built before it. *)
Fixpoint well_fed (earlier tr : list Call) : Prop :=
  match tr with
  | [] => True
  | c :: rest => consumes earlier c /\ well_fed (earlier ++ [c]) rest
  end.

(** ** Exceptions

    [all_ok w base new]: none of the calls [new], made after [base], raised. *)
Definition all_ok (w : World) (base new : list Call) : Prop :=
  forall pre c post, new = pre ++ c :: post -> raises w (base ++ pre) c = None.

(** A computation propagates when every run of it that returns has seen no
    library call raise, and every run of it that raises stops at the first
    library call that raised, with that call's exception. *)
Definition propagates {A} (m : M A) : Prop :=
  forall w st st' o, m w st = (st', o) ->
    exists new, calls st' = calls st ++ new /\
      match o with
      | Returned _ => all_ok w (calls st) new
      | Raised e =>
          exists pre c, new = pre ++ [c] /\ all_ok w (calls st) pre /\
                        raises w (calls st ++ pre) c = Some e
      end.

(** A wrapper that would recover: a failed upload answered by success. *)
Definition push_with_recovery (model : PretrainedModel) (repo : string)
    : M unit :=
  try_except (ext (call_push_to_hub model repo) tt) (fun _ => mret tt).

(** ** Runs in a world where nothing raises *)

Definition steady {A} (m : M A) : Prop :=
  forall w st, calm w -> m w st = m quiet st.

(** A computation is tame when a run of it that returns is the run of the
    quiet world, and a run of it that raises has made an initial part of the
    calls of the quiet world. *)
Definition tame {A} (m : M A) : Prop :=
  forall w st,
    match m w st with
    | (st', Returned a) => m quiet st = (st', Returned a)
    | (st', Raised _) =>
        exists rest, calls (fst (m quiet st)) = calls st' ++ rest
    end.

(** ** What every call of a computation satisfies *)

Definition emits_only (P : Call -> Prop) {A} (m : M A) : Prop :=
  forall w st st' o, m w st = (st', o) ->
    exists new, calls st' = calls st ++ new /\ Forall P new.

(** The stages of the notebook, in the order of a complete run. *)
Definition notebook_stages : list Stage :=
  [ConstructModel; ConstructStrategy; ConstructTrainer;
   Finetune false; Finetune true;
   Reload; Reload; Inference; Inference; Reload; PushToHub].

(** The configuration values reach the constructors as they are. *)
Definition verbatim (cfg : Config) (c : Call) : Prop :=
  match c with
  | call_HFAutoModelForCausalLM name => name = model_name cfg
  | call_configure_tokenizer name => name = model_name cfg
  | call_Trainer t =>
      trainer_devices t = num_devices cfg /\
      trainer_max_steps t = max_steps cfg
  | call_ModelCheckpoint _ dirpath => dirpath = ckpt_folder cfg
  | _ => True
  end.

Definition not_environ_read (c : Call) : Prop :=
  forall key, c <> call_environ_getitem key.

(** ** The process environment *)

(** The notebook reads the token from the process environment. *)
Definition reads_token (tr : list Call) : Prop :=
  In (call_environ_getitem "HF_TOKEN") tr.

(** ** The checkpoint directory *)

(** The paths the notebook loads weights and tokenizer from. *)
Definition reload_paths (tr : list Call) : list string :=
  omap (fun c => match c with
                 | call_AutoModelForCausalLM_from_pretrained p
                 | call_AutoTokenizer_from_pretrained p => Some p
                 | _ => None
                 end) tr.

(** The directory the callback wrote under [ckpt_folder], named by it. *)
Definition checkpoint_written (cfg : Config) (w : World) : string :=
  pathlib.str (pathlib.truediv (pathlib.Path (ckpt_folder cfg))
                               (callback_subdir w)).

(** The notebook reads back the directory whose name the callback chose. *)
Definition reads_back_callback_choice (cfg : Config) : Prop :=
  forall w env, calm w ->
    Forall (fun p => p = checkpoint_written cfg w)
           (reload_paths (calls (fst (run cfg w env)))).

(** A world whose callback names its checkpoint after the step it saved. *)
Definition world_step_50 : World :=
  {| raises := fun _ _ => None;
     callback_subdir := "default--val_loss=0.0000-epoch=0-step=50/hf_weights" |}.

(** ** Boundary interactions

    The outside resource a call names: an environment variable, a
    filesystem path, a repository of the model hub, an experiment-tracking
    project.  [model_name] is documented in the notebook as the "HF model
    name", from where the model is downloaded. *)

Inductive Boundary :=
| EnvironmentVariable (name : string)
| FilesystemPath (path : string)
| HubRepository (repo : string)
| TrackingProject (project : string).

Definition boundary (c : Call) : option Boundary :=
  match c with
  | call_environ_setitem key _ | call_environ_getitem key =>
      Some (EnvironmentVariable key)
  | call_ModelCheckpoint _ dirpath => Some (FilesystemPath dirpath)
  | call_AutoModelForCausalLM_from_pretrained p
  | call_AutoTokenizer_from_pretrained p => Some (FilesystemPath p)
  | call_HFAutoModelForCausalLM name | call_configure_tokenizer name =>
      Some (HubRepository name)
  | call_push_to_hub _ repo => Some (HubRepository repo)
  | call_WandbLogger l => Some (TrackingProject (wandb_project l))
  | _ => None
  end.

Definition is_push (c : Call) : bool :=
  match c with
  | call_push_to_hub _ _ => true
  | _ => false
  end.

(** The only boundary interactions are the environment variable, the
    filesystem and the upload. *)
Definition only_three_boundaries (tr : list Call) : Prop :=
  forall c b, In c tr -> boundary c = Some b ->
    (exists name, b = EnvironmentVariable name) \/
    (exists path, b = FilesystemPath path) \/
    is_push c = true.

(** ** Further vocabulary: what the training cell wires together *)

(** The configuration with another value for [accelerator]. *)
Definition with_accelerator (acc : string) (cfg : Config) : Config :=
  {| model_name := model_name cfg;
     strategy := strategy cfg;
     max_steps := max_steps cfg;
     accelerator := acc;
     num_devices := num_devices cfg;
     wandb_name := wandb_name cfg;
     use_torch_jit := use_torch_jit cfg;
     ckpt_folder := ckpt_folder cfg |}.

Definition is_finetune (c : Call) : bool :=
  match c with
  | call_finetune _ _ _ _ _ => true
  | _ => false
  end.

Definition is_model_construction (c : Call) : bool :=
  match c with
  | call_HFAutoModelForCausalLM _ => true
  | _ => false
  end.

Definition is_strategy_construction (c : Call) : bool :=
  match c with
  | call_DDPStrategy _ | call_FSDP2Strategy _ _ _
  | call_SingleDeviceStrategy _ _ => true
  | _ => false
  end.

Definition is_trainer_construction (c : Call) : bool :=
  match c with
  | call_Trainer _ => true
  | _ => false
  end.

(** The trainer handed to [finetune] saves through the full checkpoint IO
    of the very model that is fine-tuned. *)
Definition full_checkpoint_io (c : Call) : Prop :=
  match c with
  | call_finetune model _ trainer _ _ =>
      strategy_checkpoint_io (trainer_strategy trainer)
      = {| cio_model := model; cio_adapter_only := false |}
  | _ => True
  end.

(** The logger is the one [wandb_name] asks for. *)
Definition logger_as_configured (cfg : Config) (c : Call) : Prop :=
  match c with
  | call_WandbLogger l =>
      wandb_project l = "nemo_automodel" /\
      wandb_name cfg = Some (wandb_run_name l)
  | call_Trainer t =>
      trainer_logger t
      = (fun name => {| wandb_project := "nemo_automodel";
                        wandb_run_name := name |}) <$> wandb_name cfg
  | _ => True
  end.

(** The callbacks are the ones [use_torch_jit] asks for, the checkpoint
    callback last. *)
Definition callbacks_as_configured (cfg : Config) (c : Call) : Prop :=
  match c with
  | call_JitConfig jc | call_JitTransform jc =>
      use_torch_jit cfg = true /\
      jc = {| use_torch := true; torch_kwargs := [("dynamic", false)];
              use_thunder := false |}
  | call_Trainer t =>
      trainer_callbacks t
      = (if use_torch_jit cfg
         then [JitTransform {| use_torch := true;
                               torch_kwargs := [("dynamic", false)];
                               use_thunder := false |}]
         else []) ++
        [ModelCheckpoint (max_steps cfg `div` 2) (ckpt_folder cfg)]
  | _ => True
  end.

(** The checkpoint interval is the floor of half of [max_steps]. *)
Definition interval_is_half (cfg : Config) (c : Call) : Prop :=
  match c with
  | call_ModelCheckpoint every _ =>
      2 * every <= max_steps cfg < 2 * every + 2
  | _ => True
  end.

(** An FSDP2 strategy in a trainer shards over exactly the trainer's
    devices and uses no tensor parallelism. *)
Definition fsdp2_matches_devices (c : Call) : Prop :=
  match c with
  | call_Trainer t =>
      match trainer_strategy t with
      | FSDP2Strategy dp tp _ => dp = trainer_devices t /\ tp = 1
      | _ => True
      end
  | _ => True
  end.

(** A computation touches the process environment at most by storing the
    placeholder token. *)
Definition environ_steps {A} (m : M A) : Prop :=
  forall w st st' o, m w st = (st', o) ->
    environ st' = environ st \/
    environ st' = <["HF_TOKEN" := "<HF_TOKEN>"]> (environ st).

(** ** Further vocabulary: the checkpoint path *)

(** A string without the path separator. *)
Fixpoint no_sep (s : string) : bool :=
  match s with
  | EmptyString => true
  | String c s' => negb (Ascii.eqb c "/") && no_sep s'
  end.

(** The directory name the notebook expects the callback to have used. *)
Definition checkpoint_subdir (n : Z) : string :=
  "default--val_loss=0.0000-epoch=1-step=" +:+ str_int n +:+ "-last".

(** The checkpoint folder as it starts the path: normalised, with one
    separator after its last part. *)
Definition folder_prefix (folder : string) : string :=
  let p := pathlib.Path folder in
  match pathlib.parts p with
  | [] => pathlib.root p
  | ps => pathlib.root p +:+ String.concat "/" ps +:+ "/"
  end.

Definition with_ckpt_folder (folder : string) (cfg : Config) : Config :=
  {| model_name := model_name cfg;
     strategy := strategy cfg;
     max_steps := max_steps cfg;
     accelerator := accelerator cfg;
     num_devices := num_devices cfg;
     wandb_name := wandb_name cfg;
     use_torch_jit := use_torch_jit cfg;
     ckpt_folder := folder |}.

Definition with_max_steps (n : Z) (cfg : Config) : Config :=
  {| model_name := model_name cfg;
     strategy := strategy cfg;
     max_steps := n;
     accelerator := accelerator cfg;
     num_devices := num_devices cfg;
     wandb_name := wandb_name cfg;
     use_torch_jit := use_torch_jit cfg;
     ckpt_folder := ckpt_folder cfg |}.

(** * Proofs *)

(** ** Tactics *)

(** Unfolds the cells of the notebook. *)
Ltac unfold_cells :=
  unfold run, notebook, cell_token, environ_setitem, cell_train, cell_peft,
    cell_generate, cell_publish, finetune, squad, make_strategy,
    make_checkpoint_io.

(** Splits on the branches a configuration can take. *)
Ltac split_config cfg :=
  let s := fresh "s" in
  destruct cfg as [mn s ms acc nd wn jit cf];
  destruct wn as [wn|], jit;
  unfold run, notebook, cell_train, make_strategy;
  cbn [model_name strategy max_steps accelerator num_devices wandb_name
       use_torch_jit ckpt_folder];
  destruct (String.eqb s "ddp"), (String.eqb s "fsdp2").

(** Runs the notebook in the quiet world, down to the list of its calls;
    paths and numbers are left as the notebook writes them. *)
Ltac eval_run :=
  cbv [run notebook cell_token environ_setitem set_environ cell_train
       cell_peft cell_generate cell_publish finetune squad make_strategy
       make_checkpoint_io make_trainer mbind M_bind mret M_ret ext init quiet
       calls environ raises fst snd default app
       model_name strategy max_steps accelerator num_devices wandb_name
       use_torch_jit ckpt_folder].

(** Finds an element in an explicit list. *)
Ltac find_in := repeat first [ left; reflexivity | right ].

(** ** Running library calls *)

Lemma calm_quiet : calm quiet.
Proof. now intros tr c. Qed.

Section Monad_facts.
Context {A B : Type}.

Lemma ext_calm (c : Call) (v : A) w st :
  calm w ->
  ext c v w st
  = ({| calls := calls st ++ [c]; environ := environ st |}, Returned v).
Proof. intros H. unfold ext. now rewrite H. Qed.

Lemma bind_returned (m : M A) (k : A -> M B) w st st' a :
  m w st = (st', Returned a) -> (m ≫= k) w st = k a w st'.
Proof. intros H. unfold mbind, M_bind. now rewrite H. Qed.

Lemma steady_ret (a : A) : steady (mret a).
Proof. now intros w st _. Qed.

Lemma steady_ext (c : Call) (v : A) : steady (ext c v).
Proof. intros w st H. unfold ext. now rewrite H. Qed.

Lemma steady_bind (m : M A) (k : A -> M B) :
  steady m -> (forall a, steady (k a)) -> steady (m ≫= k).
Proof.
  intros Hm Hk w st H. unfold mbind, M_bind. rewrite (Hm w st H).
  destruct (m quiet st) as [st' [a|e]]; [now apply Hk | reflexivity].
Qed.
End Monad_facts.

Lemma steady_set_environ k v : steady (set_environ k v).
Proof. now intros w st _. Qed.

Ltac steady :=
  repeat first
    [ apply steady_ret
    | apply steady_ext
    | apply steady_set_environ
    | apply steady_bind; [| intros ?]
    | match goal with
      | |- steady (match ?x with _ => _ end) => destruct x
      | |- steady (let _ := _ in _) => cbv zeta
      end ].

Lemma steady_notebook cfg : steady (notebook cfg).
Proof. unfold_cells. steady. Qed.

Lemma run_calm cfg w env : calm w -> run cfg w env = run cfg quiet env.
Proof. intros H. now apply steady_notebook. Qed.

(** ** Exceptions of library calls reach the caller *)

Lemma all_ok_nil w base : all_ok w base [].
Proof. intros pre c post H. destruct pre; discriminate H. Qed.

Lemma all_ok_single w base c :
  raises w base c = None -> all_ok w base [c].
Proof.
  intros H pre c' post E.
  destruct pre as [|x pre].
  - injection E as <- _. now rewrite app_nil_r.
  - injection E as _ E. destruct pre; discriminate E.
Qed.

Lemma all_ok_app w base l1 l2 :
  all_ok w base l1 -> all_ok w (base ++ l1) l2 -> all_ok w base (l1 ++ l2).
Proof.
  intros H1 H2 pre c post E.
  destruct (decide (length pre < length l1)%nat) as [Hlt|Hge].
  - assert (Hp : exists post1, l1 = pre ++ c :: post1).
    { exists (drop (S (length pre)) l1).
      assert (Ht : take (length pre) l1 = pre).
      { apply (f_equal (take (length pre))) in E.
        rewrite take_app_le in E by lia.
        rewrite take_app_length in E. exact E. }
      assert (Hc : l1 !! length pre = Some c).
      { apply (f_equal (fun l => l !! length pre)) in E.
        rewrite lookup_app_l in E by exact Hlt.
        rewrite E. now rewrite list_lookup_middle. }
      rewrite <- (take_drop (length pre) l1) at 1. rewrite Ht. f_equal.
      now rewrite (drop_S _ _ _ Hc). }
    destruct Hp as [post1 ->]. now apply (H1 pre c post1).
  - assert (Hp : exists pre2, pre = l1 ++ pre2 /\ l2 = pre2 ++ c :: post).
    { exists (drop (length l1) pre).
      assert (Ht : take (length l1) pre = l1).
      { apply (f_equal (take (length l1))) in E.
        rewrite take_app_length in E.
        rewrite take_app_le in E by lia. now symmetry. }
      split.
      - rewrite <- Ht at 1. now rewrite take_drop.
      - apply (f_equal (drop (length l1))) in E.
        rewrite drop_app_length in E. rewrite E.
        rewrite drop_app_le by lia. reflexivity. }
    destruct Hp as (pre2 & -> & ->).
    rewrite app_assoc. now apply (H2 pre2 c post).
Qed.

Lemma propagates_ret {A} (a : A) : propagates (mret a).
Proof.
  intros w st st' o H. injection H as <- <-.
  exists []. rewrite app_nil_r. split; [reflexivity | apply all_ok_nil].
Qed.

Lemma propagates_ext {A} (c : Call) (v : A) : propagates (ext c v).
Proof.
  intros w st st' o H. unfold ext in H.
  destruct (raises w (calls st) c) as [e|] eqn:R; injection H as <- <-;
    exists [c]; (split; [reflexivity|]).
  - exists [], c. rewrite app_nil_r.
    repeat split; [apply all_ok_nil | exact R].
  - now apply all_ok_single.
Qed.

Lemma propagates_bind {A B} (m : M A) (k : A -> M B) :
  propagates m -> (forall a, propagates (k a)) -> propagates (m ≫= k).
Proof.
  intros Hm Hk w st st' o H. unfold mbind, M_bind in H.
  destruct (m w st) as [st1 [a|e]] eqn:Em.
  - destruct (Hm _ _ _ _ Em) as (new1 & E1 & Ok1).
    destruct (Hk a _ _ _ _ H) as (new2 & E2 & Ok2).
    exists (new1 ++ new2). split.
    { rewrite E2, E1. now rewrite app_assoc. }
    rewrite E1 in Ok2. destruct o as [b|e].
    + now apply all_ok_app.
    + destruct Ok2 as (pre & c & -> & Okp & R).
      exists (new1 ++ pre), c. split; [now rewrite app_assoc|]. split.
      * now apply all_ok_app.
      * now rewrite app_assoc.
  - injection H as <- <-. exact (Hm _ _ _ _ Em).
Qed.

Lemma propagates_set_environ key value : propagates (set_environ key value).
Proof.
  intros w st st' o H. injection H as <- <-.
  exists []. cbn. rewrite app_nil_r. split; [reflexivity | apply all_ok_nil].
Qed.

Ltac propagate :=
  repeat first
    [ apply propagates_ret
    | apply propagates_ext
    | apply propagates_set_environ
    | apply propagates_bind; [| intros ?]
    | match goal with
      | |- propagates (match ?x with _ => _ end) => destruct x
      | |- propagates (let _ := _ in _) => cbv zeta
      end ].

Lemma propagates_make_strategy s model devices num_nodes adapter_only :
  propagates (make_strategy s model devices num_nodes adapter_only).
Proof. unfold make_strategy, make_checkpoint_io. propagate. Qed.

Lemma propagates_notebook cfg : propagates (notebook cfg).
Proof. unfold_cells. propagate. Qed.

(** ** What the calls of the notebook carry *)

Section Emits.
Context (P : Call -> Prop).

Lemma emits_ret {A} (a : A) : emits_only P (mret a).
Proof.
  intros w st st' o H. injection H as <- <-.
  exists []. now rewrite app_nil_r.
Qed.

Lemma emits_set_environ key value : emits_only P (set_environ key value).
Proof.
  intros w st st' o H. injection H as <- <-.
  exists []. cbn. now rewrite app_nil_r.
Qed.

Lemma emits_ext {A} (c : Call) (v : A) : P c -> emits_only P (ext c v).
Proof.
  intros Hc w st st' o H. unfold ext in H. exists [c].
  destruct (raises w (calls st) c); injection H as <- <-;
    (split; [reflexivity | now constructor]).
Qed.

Lemma emits_bind {A B} (m : M A) (k : A -> M B) :
  emits_only P m -> (forall a, emits_only P (k a)) ->
  emits_only P (m ≫= k).
Proof.
  intros Hm Hk w st st' o H. unfold mbind, M_bind in H.
  destruct (m w st) as [st1 [a|e]] eqn:Em.
  - destruct (Hm _ _ _ _ Em) as (new1 & E1 & F1).
    destruct (Hk a _ _ _ _ H) as (new2 & E2 & F2).
    exists (new1 ++ new2). split.
    + rewrite E2, E1. now rewrite app_assoc.
    + now apply Forall_app.
  - injection H as <- <-. exact (Hm _ _ _ _ Em).
Qed.
End Emits.

Ltac emits tac :=
  repeat first
    [ apply emits_ret
    | apply emits_set_environ
    | apply emits_ext; solve [tac]
    | apply emits_bind; [| intros ?]
    | match goal with
      | |- emits_only _ (match ?x with _ => _ end) => destruct x
      | |- emits_only _ (let _ := _ in _) => cbv zeta
      end ].

Lemma notebook_verbatim cfg : emits_only (verbatim cfg) (notebook cfg).
Proof. unfold_cells. emits ltac:(cbn; auto). Qed.

Lemma notebook_never_reads_environ cfg :
  emits_only not_environ_read (notebook cfg).
Proof. unfold_cells. emits ltac:(intros key; discriminate). Qed.

(** ** A failing run is an initial part of the complete run *)

Lemma tame_ret {A} (a : A) : tame (mret a).
Proof. now intros w st. Qed.

Lemma tame_set_environ key value : tame (set_environ key value).
Proof. now intros w st. Qed.

Lemma tame_ext {A} (c : Call) (v : A) : tame (ext c v).
Proof.
  intros w st. unfold ext.
  destruct (raises w (calls st) c); cbn; [| reflexivity].
  exists []. now rewrite app_nil_r.
Qed.

Lemma tame_bind {A B} (m : M A) (k : A -> M B) :
  tame m -> (forall a, tame (k a)) ->
  (forall a, emits_only (fun _ => True) (k a)) ->
  tame (m ≫= k).
Proof.
  intros Hm Hk He w st. unfold mbind, M_bind.
  specialize (Hm w st).
  destruct (m w st) as [st1 [a|e]].
  - rewrite Hm. apply Hk.
  - destruct Hm as [rest Hrest].
    destruct (m quiet st) as [sq [a'|e']]; cbn in Hrest.
    + destruct (k a' quiet sq) as [s2 o2] eqn:Ek.
      destruct (He a' _ _ _ _ Ek) as (new & En & _).
      exists (rest ++ new). cbn. rewrite En, Hrest. now rewrite app_assoc.
    + now exists rest.
Qed.

Ltac tame :=
  repeat first
    [ apply tame_ret
    | apply tame_ext
    | apply tame_set_environ
    | apply tame_bind; [| intros ? | intros ?; emits ltac:(exact I)]
    | match goal with
      | |- tame (match ?x with _ => _ end) => destruct x
      | |- tame (let _ := _ in _) => cbv zeta
      end ].

Lemma tame_notebook cfg : tame (notebook cfg).
Proof. unfold_cells. tame. Qed.

(** In any world the calls of the notebook are an initial part of its calls
    in the quiet world. *)
Lemma run_prefix cfg w env :
  calls (fst (run cfg w env)) `prefix_of` calls (fst (run cfg quiet env)).
Proof.
  unfold run. pose proof (tame_notebook cfg w (init env)) as H.
  destruct (notebook cfg w (init env)) as [st [a|e]].
  - rewrite H. reflexivity.
  - destruct H as [rest H]. exists rest. exact H.
Qed.

Lemma well_fed_prefix tr : forall earlier rest,
  well_fed earlier (tr ++ rest) -> well_fed earlier tr.
Proof.
  induction tr as [|c tr IH]; intros earlier rest H; [exact I |].
  destruct H as [Hc H]. split; [exact Hc | exact (IH _ _ H)].
Qed.

(** ** [make_strategy] *)

(** In a calm world [make_strategy] makes two library calls, the checkpoint
    IO of the model and then the strategy it returns. *)
Lemma make_strategy_calm s model devices num_nodes adapter_only w st :
  calm w ->
  exists strat,
    make_strategy s model devices num_nodes adapter_only w st
    = ({| calls := calls st ++
                   [call_make_checkpoint_io model (default false adapter_only);
                    strategy_call strat];
          environ := environ st |}, Returned strat) /\
    strat =
      let cio := {| cio_model := model;
                    cio_adapter_only := default false adapter_only |} in
      if decide (s = "ddp") then DDPStrategy cio
      else if decide (s = "fsdp2")
           then FSDP2Strategy (devices * num_nodes) 1 cio
           else SingleDeviceStrategy "cuda:0" cio.
Proof.
  intros H. unfold make_strategy, make_checkpoint_io.
  destruct (decide (s = "ddp")) as [E1|E1];
    [| destruct (decide (s = "fsdp2")) as [E2|E2]].
  1: rewrite (proj2 (String.eqb_eq _ _) E1).
  2: rewrite (proj2 (String.eqb_neq _ _) E1), (proj2 (String.eqb_eq _ _) E2).
  3: rewrite (proj2 (String.eqb_neq _ _) E1), (proj2 (String.eqb_neq _ _) E2).
  all: eexists; (split; [| reflexivity]).
  all: erewrite bind_returned by (apply ext_calm; exact H).
  all: rewrite ext_calm by exact H; cbn.
  all: now rewrite <- app_assoc.
Qed.

(** Whenever [make_strategy] returns, in any world, it returns the strategy
    its conditional selects. *)
Lemma make_strategy_returned s model devices num_nodes adapter_only w st st'
    strat :
  make_strategy s model devices num_nodes adapter_only w st
  = (st', Returned strat) ->
  strat =
    let cio := {| cio_model := model;
                  cio_adapter_only := default false adapter_only |} in
    if decide (s = "ddp") then DDPStrategy cio
    else if decide (s = "fsdp2")
         then FSDP2Strategy (devices * num_nodes) 1 cio
         else SingleDeviceStrategy "cuda:0" cio.
Proof.
  unfold make_strategy, make_checkpoint_io, mbind, M_bind, ext. cbv zeta.
  destruct (decide (s = "ddp")) as [E1|E1];
    [| destruct (decide (s = "fsdp2")) as [E2|E2]].
  1: rewrite (proj2 (String.eqb_eq _ _) E1).
  2: rewrite (proj2 (String.eqb_neq _ _) E1), (proj2 (String.eqb_eq _ _) E2).
  3: rewrite (proj2 (String.eqb_neq _ _) E1), (proj2 (String.eqb_neq _ _) E2).
  all: destruct (raises w (calls st) _); [discriminate |]; cbn [calls].
  all: destruct (raises w _ _); [discriminate |].
  all: intros H; injection H as _ <-; reflexivity.
Qed.

(** C1: [make_strategy] returns one of three library strategy objects,
    chosen by a three-way conditional on the string: a [DDPStrategy] for
    ["ddp"], an [FSDP2Strategy] with [data_parallel_size = devices *
    num_nodes] and [tensor_parallel_size = 1] for ["fsdp2"], and a
    [SingleDeviceStrategy] on ["cuda:0"] for every other string.  Whatever it
    returns is that object, and it does return when the library calls it
    makes do not raise. *)
Theorem make_strategy_three_way
    (s : string) (model : HFAutoModelForCausalLM) (devices num_nodes : Z)
    (adapter_only : option bool) (w : World) (st : State) :
  let cio := {| cio_model := model;
                cio_adapter_only := default false adapter_only |} in
  let selected := if decide (s = "ddp") then DDPStrategy cio
                  else if decide (s = "fsdp2")
                       then FSDP2Strategy (devices * num_nodes) 1 cio
                       else SingleDeviceStrategy "cuda:0" cio in
  (forall strat,
     snd (make_strategy s model devices num_nodes adapter_only w st)
     = Returned strat -> strat = selected) /\
  (calm w ->
   snd (make_strategy s model devices num_nodes adapter_only w st)
   = Returned selected).
Proof.
  cbv zeta. split.
  - intros strat H.
    destruct (make_strategy s model devices num_nodes adapter_only w st)
      as [st' o] eqn:E.
    cbn in H. subst o. exact (make_strategy_returned _ _ _ _ _ _ _ _ _ E).
  - intros H.
    destruct (make_strategy_calm s model devices num_nodes adapter_only w st H)
      as (strat & -> & ->).
    reflexivity.
Qed.

Lemma make_strategy_three_way_witness :
  calm quiet /\
  snd (make_strategy "fsdp2" {| hf_model_name := "meta-llama/Llama-3.2-1B" |}
         4 2 (Some true) quiet (init ∅))
  = Returned (FSDP2Strategy 8 1
                {| cio_model := {| hf_model_name := "meta-llama/Llama-3.2-1B" |};
                   cio_adapter_only := true |}).
Proof.
  split; [exact calm_quiet |].
  exact (proj2 (make_strategy_three_way "fsdp2"
                  {| hf_model_name := "meta-llama/Llama-3.2-1B" |} 4 2
                  (Some true) quiet (init ∅)) calm_quiet).
Defined.

(** C9: whatever the string and the branch, the strategy [make_strategy]
    returns carries [model.make_checkpoint_io(adapter_only=adapter_only)],
    obtained by one call made just before the strategy is built; a call that
    omits [adapter_only] asks for the full checkpoint IO
    ([adapter_only = False]).  This holds of every strategy returned, and
    one is returned when the library calls do not raise. *)
Theorem make_strategy_checkpoint_io
    (s : string) (model : HFAutoModelForCausalLM) (devices num_nodes : Z)
    (adapter_only : option bool) (w : World) (st : State) :
  let cio := {| cio_model := model;
                cio_adapter_only := match adapter_only with
                                    | Some b => b
                                    | None => false
                                    end |} in
  (forall strat st',
     make_strategy s model devices num_nodes adapter_only w st
     = (st', Returned strat) ->
     strategy_checkpoint_io strat = cio /\
     calls st'
     = calls st ++
       [call_make_checkpoint_io model (cio_adapter_only cio);
        strategy_call strat]) /\
  (calm w ->
   exists strat st',
     make_strategy s model devices num_nodes adapter_only w st
     = (st', Returned strat)).
Proof.
  cbv zeta. split.
  - intros strat st' E.
    pose proof (make_strategy_returned _ _ _ _ _ _ _ _ _ E) as Hs.
    cbv zeta in Hs. split.
    + rewrite Hs.
      destruct (decide (s = "ddp")); [| destruct (decide (s = "fsdp2"))];
        now destruct adapter_only.
    + revert E.
      unfold make_strategy, make_checkpoint_io, mbind, M_bind, ext.
      destruct (s =? "ddp")%string; [| destruct (s =? "fsdp2")%string].
      all: destruct (raises w (calls st) _); [discriminate |]; cbn [calls].
      all: destruct (raises w _ _); [discriminate |].
      all: intros E; injection E as <- <-; cbn;
        rewrite <- app_assoc; now destruct adapter_only.
  - intros H.
    destruct (make_strategy_calm s model devices num_nodes adapter_only w st H)
      as (strat & E & _).
    eauto.
Qed.

Lemma make_strategy_checkpoint_io_witness :
  calm quiet /\
  exists strat st',
    make_strategy "ddp" {| hf_model_name := "google/gemma-2b" |} 2 1 None
      quiet (init ∅) = (st', Returned strat) /\
    strategy_checkpoint_io strat
    = {| cio_model := {| hf_model_name := "google/gemma-2b" |};
         cio_adapter_only := false |} /\
    calls st'
    = [call_make_checkpoint_io {| hf_model_name := "google/gemma-2b" |} false;
       strategy_call strat].
Proof.
  split; [exact calm_quiet |].
  destruct (make_strategy_checkpoint_io "ddp"
              {| hf_model_name := "google/gemma-2b" |} 2 1 None quiet (init ∅))
    as [Hall Hex].
  destruct (Hex calm_quiet) as (strat & st' & E).
  exists strat, st'. split; [exact E |]. exact (Hall strat st' E).
Defined.

(** C10: a strategy string that is neither ["ddp"] nor ["fsdp2"] (the empty
    string the notebook assigns, a misspelt name) makes [make_strategy]
    return a [SingleDeviceStrategy] on ["cuda:0"]; the function raises
    nothing of its own (an exception can only be one of a library call), and
    the trainer is then built with that strategy next to
    [devices = num_devices] (2 in the notebook). *)
Theorem make_strategy_default_branch (cfg : Config) (w : World)
    (env : gmap string string) :
  strategy cfg <> "ddp" -> strategy cfg <> "fsdp2" -> calm w ->
  (forall model devices num_nodes adapter_only st,
     snd (make_strategy (strategy cfg) model devices num_nodes adapter_only
            w st)
     = Returned (SingleDeviceStrategy "cuda:0"
                   {| cio_model := model;
                      cio_adapter_only := default false adapter_only |})) /\
  (forall model devices num_nodes adapter_only,
     propagates
       (make_strategy (strategy cfg) model devices num_nodes adapter_only)) /\
  exists t,
    In (call_Trainer t) (calls (fst (run cfg w env))) /\
    trainer_devices t = num_devices cfg /\
    trainer_strategy t
    = SingleDeviceStrategy "cuda:0"
        {| cio_model := {| hf_model_name := model_name cfg |};
           cio_adapter_only := false |}.
Proof.
  intros H1 H2 H. split; [| split].
  - intros model devices num_nodes adapter_only st.
    destruct (make_strategy_calm (strategy cfg) model devices num_nodes
                adapter_only w st H) as (strat & -> & ->).
    cbn. now rewrite !decide_False by assumption.
  - intros. apply propagates_make_strategy.
  - rewrite (run_calm _ _ _ H).
    apply String.eqb_neq in H1, H2.
    destruct cfg as [mn s ms acc nd wn jit cf].
    unfold run, notebook, cell_train, make_strategy.
    cbn [model_name strategy max_steps accelerator num_devices wandb_name
         use_torch_jit ckpt_folder] in *.
    rewrite H1, H2.
    destruct wn as [wn|], jit;
      (eexists; split; [eval_run; find_in | split; reflexivity]).
Qed.

Lemma make_strategy_default_branch_witness :
  (strategy notebook_config <> "ddp" /\
   strategy notebook_config <> "fsdp2" /\ calm quiet) /\
  (forall model devices num_nodes adapter_only st,
     snd (make_strategy (strategy notebook_config) model devices num_nodes
            adapter_only quiet st)
     = Returned (SingleDeviceStrategy "cuda:0"
                   {| cio_model := model;
                      cio_adapter_only := default false adapter_only |})) /\
  exists t,
    In (call_Trainer t) (calls (fst (run notebook_config quiet ∅))) /\
    trainer_devices t = 2 /\
    trainer_strategy t
    = SingleDeviceStrategy "cuda:0"
        {| cio_model := {| hf_model_name := "meta-llama/Llama-3.2-1B" |};
           cio_adapter_only := false |}.
Proof.
  assert (H1 : strategy notebook_config <> "ddp") by discriminate.
  assert (H2 : strategy notebook_config <> "fsdp2") by discriminate.
  split; [split; [exact H1 | split; [exact H2 | exact calm_quiet]] |].
  destruct (make_strategy_default_branch notebook_config quiet ∅ H1 H2
              calm_quiet) as (Hs & _ & Ht).
  split; [exact Hs | exact Ht].
Defined.

(** ** The order of the script *)

(** What a complete run of the notebook looks like. *)
Lemma notebook_quiet_run cfg env :
  let tr := calls (fst (run cfg quiet env)) in
  snd (run cfg quiet env) = Returned tt /\
  omap stage tr = notebook_stages /\
  well_fed [] tr /\
  exists model repo, last tr = Some (call_push_to_hub model repo).
Proof.
  cbv zeta. split_config cfg.
  all: eval_run.
  all: split; [reflexivity |].
  all: split; [reflexivity |].
  all: split; [cbn; repeat split; find_in |].
  all: eexists _, _; reflexivity.
Qed.

(** C5: whatever the configuration, the notebook goes through its stages in
    one fixed order: the model is constructed, then the strategy (from the
    model), then the trainer (from the strategy), then [finetune] is called
    (with model, data and trainer; first without and then with a PEFT
    adapter); only then are the weights reloaded with [from_pretrained] and
    the generation pipeline run, and the last call of all is [push_to_hub].
    A run cut short by an exception has made an initial part of these
    stages; in every run each call consumes only objects built by earlier
    calls; and when no library call raises the run goes through all of the
    stages and ends with [push_to_hub]. *)
Theorem notebook_stage_order (cfg : Config) (w : World)
    (env : gmap string string) :
  let tr := calls (fst (run cfg w env)) in
  omap stage tr `prefix_of` notebook_stages /\
  well_fed [] tr /\
  (calm w ->
   snd (run cfg w env) = Returned tt /\
   omap stage tr = notebook_stages /\
   exists model repo, last tr = Some (call_push_to_hub model repo)).
Proof.
  cbv zeta.
  destruct (notebook_quiet_run cfg env) as (Hr & Hs & Hf & Hl).
  destruct (run_prefix cfg w env) as [rest Hp].
  split; [| split].
  - exists (omap stage rest). rewrite <- Hs, Hp. apply omap_app.
  - rewrite Hp in Hf. exact (well_fed_prefix _ _ _ Hf).
  - intros H. rewrite (run_calm _ _ _ H). now repeat split.
Qed.

Lemma notebook_stage_order_witness :
  calm quiet /\
  let tr := calls (fst (run notebook_config quiet ∅)) in
  snd (run notebook_config quiet ∅) = Returned tt /\
  omap stage tr = notebook_stages /\
  exists model repo, last tr = Some (call_push_to_hub model repo).
Proof.
  split; [exact calm_quiet |].
  exact (proj2 (proj2 (notebook_stage_order notebook_config quiet ∅))
           calm_quiet).
Defined.

(** ** Exceptions *)

Lemma recovery_does_not_propagate model repo :
  ~ propagates (push_with_recovery model repo).
Proof.
  intros H.
  pose (e := {| exn_class := "HTTPError"; exn_msg := "401" |}).
  pose (w := {| raises := fun _ _ => Some e; callback_subdir := EmptyString |}).
  destruct (H w (init ∅) _ _ eq_refl) as (new & E & Ok).
  cbn in E, Ok. subst new.
  specialize (Ok [] (call_push_to_hub model repo) [] eq_refl).
  discriminate Ok.
Qed.

(** C6: the notebook never catches, retries or translates an exception.  In
    every world, a run that returns has seen no library call raise; a run
    that raises has stopped at the first library call that raised (nothing
    is attempted after it) and hands on that very exception. *)
Theorem notebook_propagates_exceptions (cfg : Config) (w : World)
    (env : gmap string string) :
  let tr := calls (fst (run cfg w env)) in
  match snd (run cfg w env) with
  | Returned _ => all_ok w [] tr
  | Raised e =>
      exists pre c, tr = pre ++ [c] /\ all_ok w [] pre /\
                    raises w pre c = Some e
  end.
Proof.
  cbv zeta. unfold run.
  destruct (notebook cfg w (init env)) as [st o] eqn:E.
  destruct (propagates_notebook cfg _ _ _ _ E) as (new & En & Ho).
  cbn in En, Ho |- *. rewrite En. exact Ho.
Qed.

(** ** Configuration values *)

(** C8: the configuration values reach the library constructors as they
    are: [model_name] goes to [llm.HFAutoModelForCausalLM] and to
    [configure_tokenizer], [num_devices] to [make_strategy] and to
    [nl.Trainer(devices=...)], [max_steps] to [nl.Trainer(max_steps=...)]
    and [ckpt_folder] to [nl.ModelCheckpoint(dirpath=...)] (whose
    [every_n_train_steps] is [max_steps // 2]). *)
Theorem config_passed_verbatim (cfg : Config) (w : World)
    (env : gmap string string) :
  calm w ->
  let tr := calls (fst (run cfg w env)) in
  Forall (verbatim cfg) tr /\
  In (call_HFAutoModelForCausalLM (model_name cfg)) tr /\
  In (call_configure_tokenizer (model_name cfg)) tr /\
  In (call_ModelCheckpoint (max_steps cfg `div` 2) (ckpt_folder cfg)) tr /\
  exists t st1 st2,
    In (call_Trainer t) tr /\
    trainer_devices t = num_devices cfg /\
    trainer_max_steps t = max_steps cfg /\
    make_strategy (strategy cfg) {| hf_model_name := model_name cfg |}
      (num_devices cfg) 1 None w st1
    = (st2, Returned (trainer_strategy t)).
Proof.
  intros H tr. split.
  { subst tr. unfold run.
    destruct (notebook cfg w (init env)) as [st o] eqn:E.
    destruct (notebook_verbatim cfg _ _ _ _ E) as (new & En & F).
    cbn in En |- *. rewrite En. exact F. }
  destruct (make_strategy_calm (strategy cfg)
              {| hf_model_name := model_name cfg |} (num_devices cfg) 1 None
              w (init env) H) as (strat & Em & Hs).
  assert (Ht : exists t, In (call_Trainer t) tr /\
                         trainer_devices t = num_devices cfg /\
                         trainer_max_steps t = max_steps cfg /\
                         trainer_strategy t = strat).
  { subst tr. rewrite (run_calm _ _ _ H). clear Em.
    destruct cfg as [mn s ms acc nd wn jit cf].
    unfold run, notebook, cell_train, make_strategy.
    cbn [model_name strategy max_steps accelerator num_devices wandb_name
         use_torch_jit ckpt_folder] in *.
    cbv zeta in Hs.
    destruct (String.eqb_spec s "ddp") as [E1|E1];
      [| destruct (String.eqb_spec s "fsdp2") as [E2|E2]].
    1: rewrite decide_True in Hs by exact E1.
    2: rewrite decide_False, decide_True in Hs by assumption.
    3: rewrite !decide_False in Hs by assumption.
    all: destruct wn as [wn|], jit; eval_run;
      (eexists; split; [find_in | now repeat split]). }
  destruct Ht as (t & Ht & Hd & Hm & <-).
  assert (Hc : In (call_HFAutoModelForCausalLM (model_name cfg)) tr /\
               In (call_configure_tokenizer (model_name cfg)) tr /\
               In (call_ModelCheckpoint (max_steps cfg `div` 2)
                     (ckpt_folder cfg)) tr).
  { subst tr. rewrite (run_calm _ _ _ H). clear.
    split_config cfg; eval_run;
      (split; [find_in | split; find_in]). }
  destruct Hc as (Hc1 & Hc2 & Hc3).
  repeat (split; [assumption |]).
  exists t. eexists _, _. repeat (split; [assumption |]). exact Em.
Qed.

Lemma config_passed_verbatim_witness :
  calm quiet /\
  let tr := calls (fst (run notebook_config quiet ∅)) in
  Forall (verbatim notebook_config) tr /\
  In (call_HFAutoModelForCausalLM (model_name notebook_config)) tr /\
  In (call_configure_tokenizer (model_name notebook_config)) tr /\
  In (call_ModelCheckpoint 50 (ckpt_folder notebook_config)) tr /\
  exists t st1 st2,
    In (call_Trainer t) tr /\
    trainer_devices t = num_devices notebook_config /\
    trainer_max_steps t = max_steps notebook_config /\
    make_strategy (strategy notebook_config)
      {| hf_model_name := model_name notebook_config |}
      (num_devices notebook_config) 1 None quiet st1
    = (st2, Returned (trainer_strategy t)).
Proof.
  split; [exact calm_quiet |].
  exact (config_passed_verbatim notebook_config quiet ∅ calm_quiet).
Defined.

(** ** The data module *)




(** A repeated keyword is a [TypeError] of the call expression. *)
Example create_dataloader_duplicate_keyword self dataset w st :
  snd (_create_dataloader self dataset "train" [("batch_size", PyInt 8)] w st)
  = Raised {| exn_class := "TypeError";
              exn_msg := "torch.utils.data.dataloader.DataLoader() got multiple values for keyword argument 'batch_size'" |}.
Proof. reflexivity. Qed.

(** ** The hub token *)

(** C3, as stated, fails: with a token already in the environment, no call
    of the notebook reads [HF_TOKEN]. *)
Lemma notebook_does_not_read_token :
  ~ reads_token
      (calls (fst (run notebook_config quiet {["HF_TOKEN" := "hf_from_shell"]}))).
Proof.
  unfold reads_token, run.
  remember (init {["HF_TOKEN" := "hf_from_shell"]}) as st0 eqn:E0.
  assert (H0 : calls st0 = []) by now subst st0.
  clear E0. intros H.
  destruct (notebook notebook_config quiet st0) as [st o] eqn:E.
  destruct (notebook_never_reads_environ notebook_config _ _ _ _ E)
    as (new & En & F).
  rewrite H0 in En. cbn [fst app] in En, H. rewrite En in H.
  exact (proj1 (List.Forall_forall _ _) F _ H "HF_TOKEN" eq_refl).
Qed.

(** C3, amended: the notebook does not read the hub token, it writes it.
    Its first call assigns the placeholder ['<HF_TOKEN>'] to [HF_TOKEN] in
    the process environment, whatever was there before; no call of the
    notebook reads an environment variable. *)
Theorem notebook_writes_token (cfg : Config) (w : World)
    (env : gmap string string) :
  calm w ->
  let st := fst (run cfg w env) in
  Forall not_environ_read (calls st) /\
  head (calls st) = Some (call_environ_setitem "HF_TOKEN" "<HF_TOKEN>") /\
  environ st = <["HF_TOKEN" := "<HF_TOKEN>"]> env /\
  environ st !! "HF_TOKEN" = Some "<HF_TOKEN>".
Proof.
  intros H st. split.
  { subst st. unfold run.
    destruct (notebook cfg w (init env)) as [st o] eqn:E.
    destruct (notebook_never_reads_environ cfg _ _ _ _ E) as (new & En & F).
    cbn in En |- *. rewrite En. exact F. }
  assert (He : head (calls st)
               = Some (call_environ_setitem "HF_TOKEN" "<HF_TOKEN>") /\
               environ st = <["HF_TOKEN" := "<HF_TOKEN>"]> env).
  { subst st. rewrite (run_calm _ _ _ H).
    split_config cfg; eval_run; now split. }
  destruct He as [Hh He].
  split; [exact Hh |]. split; [exact He |].
  rewrite He. apply lookup_insert_eq.
Qed.

Lemma notebook_writes_token_witness :
  calm quiet /\
  let st := fst (run notebook_config quiet {["HF_TOKEN" := "hf_from_shell"]}) in
  Forall not_environ_read (calls st) /\
  head (calls st) = Some (call_environ_setitem "HF_TOKEN" "<HF_TOKEN>") /\
  environ st
  = <["HF_TOKEN" := "<HF_TOKEN>"]> {["HF_TOKEN" := "hf_from_shell"]} /\
  environ st !! "HF_TOKEN" = Some "<HF_TOKEN>".
Proof.
  split; [exact calm_quiet |].
  exact (notebook_writes_token notebook_config quiet
           {["HF_TOKEN" := "hf_from_shell"]} calm_quiet).
Defined.

(** ** The checkpoint directory *)

Lemma calm_world_step_50 : calm world_step_50.
Proof. now intros tr c. Qed.

Example new_checkpoint_ten_steps :
  pathlib.str
    (new_checkpoint
       {| model_name := "google/gemma-2b"; strategy := "ddp"; max_steps := 10;
          accelerator := "gpu"; num_devices := 1; wandb_name := None;
          use_torch_jit := false; ckpt_folder := "ckpts" |})
  = "ckpts/default--val_loss=0.0000-epoch=1-step=10-last/hf_weights".
Proof. reflexivity. Qed.

Example new_checkpoint_notebook :
  pathlib.str (new_checkpoint notebook_config)
  = "/opt/checkpoints/automodel_experiments/default--val_loss=0.0000-epoch=1-step=100-last/hf_weights".
Proof. reflexivity. Qed.

(** C4, as stated, fails: where the callback names its checkpoint
    ["default--val_loss=0.0000-epoch=0-step=50"], the notebook still loads
    from the directory name it builds itself. *)
Lemma notebook_ignores_callback_choice :
  ~ reads_back_callback_choice notebook_config.
Proof.
  intros H.
  specialize (H world_step_50 ∅ calm_world_step_50).
  rewrite (run_calm _ _ _ calm_world_step_50) in H.
  apply Forall_inv in H. vm_compute in H. discriminate H.
Qed.

(** C4, amended: the name of the directory the notebook reads back is
    built by the notebook, as
    [Path(ckpt_folder) / f"default--val_loss=0.0000-epoch=1-step={max_steps}-last/hf_weights"],
    from its own [ckpt_folder] and [max_steps]; all three loads use that
    path, whatever name the checkpointing callback chose. *)
Theorem notebook_builds_checkpoint_path (cfg : Config) (w : World)
    (env : gmap string string) :
  calm w ->
  let p :=
    pathlib.str
      (pathlib.truediv (pathlib.Path (ckpt_folder cfg))
         ("default--val_loss=0.0000-epoch=1-step=" +:+ str_int (max_steps cfg)
          +:+ "-last/hf_weights")) in
  reload_paths (calls (fst (run cfg w env))) = [p; p; p] /\
  p = pathlib.str (new_checkpoint cfg) /\
  forall w' env', calm w' ->
    reload_paths (calls (fst (run cfg w' env')))
    = reload_paths (calls (fst (run cfg w env))).
Proof.
  intros H p.
  assert (Hq : forall env0,
             reload_paths (calls (fst (run cfg quiet env0))) = [p; p; p]).
  { intros env0. subst p. clear. split_config cfg; eval_run; reflexivity. }
  split; [| split].
  - rewrite (run_calm _ _ _ H). apply Hq.
  - reflexivity.
  - intros w' env' H'.
    rewrite (run_calm _ _ _ H), (run_calm _ _ _ H'). now rewrite !Hq.
Qed.

Lemma notebook_builds_checkpoint_path_witness :
  calm world_step_50 /\
  reload_paths (calls (fst (run notebook_config world_step_50 ∅)))
  = repeat "/opt/checkpoints/automodel_experiments/default--val_loss=0.0000-epoch=1-step=100-last/hf_weights" 3.
Proof.
  split; [exact calm_world_step_50 |].
  exact (proj1 (notebook_builds_checkpoint_path notebook_config world_step_50
                  ∅ calm_world_step_50)).
Defined.

(** ** Boundary interactions *)

(** C7, as stated, fails: before it uploads anything, the notebook names a
    repository of the model hub, [model_name], from which the pretrained
    model is fetched. *)
Lemma notebook_names_hub_model :
  ~ only_three_boundaries (calls (fst (run notebook_config quiet ∅))).
Proof.
  intros H.
  destruct (H (call_HFAutoModelForCausalLM "meta-llama/Llama-3.2-1B")
              (HubRepository "meta-llama/Llama-3.2-1B"))
    as [[name E] | [[path E] | E]];
    [vm_compute; find_in | reflexivity | discriminate E ..].
Qed.

(** C7, amended: when no experiment logger is configured ([wandb_name] is
    [None], as in the notebook), the boundary interactions of the notebook
    are, in order: the write of the [HF_TOKEN] environment variable, the
    checkpoint directory handed to the checkpoint callback, the hub
    repository [model_name] handed to [llm.HFAutoModelForCausalLM] and twice
    to [configure_tokenizer], three loads from the checkpoint path on the
    filesystem, and one upload to the model hub, which is the last call of
    the notebook.  Each is one call into a library function. *)
Theorem notebook_boundary_interactions (cfg : Config) (w : World)
    (env : gmap string string) :
  calm w -> wandb_name cfg = None ->
  let tr := calls (fst (run cfg w env)) in
  let p := pathlib.str (new_checkpoint cfg) in
  let upload := call_push_to_hub {| pretrained_path := p |}
                                 "<account/your-hf-repo>" in
  omap boundary tr
  = [EnvironmentVariable "HF_TOKEN";
     FilesystemPath (ckpt_folder cfg);
     HubRepository (model_name cfg);
     HubRepository (model_name cfg);
     HubRepository (model_name cfg);
     FilesystemPath p; FilesystemPath p; FilesystemPath p;
     HubRepository "<account/your-hf-repo>"] /\
  List.filter is_push tr = [upload] /\
  last tr = Some upload.
Proof.
  intros H Hw. rewrite (run_calm _ _ _ H). cbv zeta.
  destruct cfg as [mn s ms acc nd wn jit cf]. cbn in Hw. subst wn.
  unfold run, notebook, cell_train, make_strategy.
  cbn [model_name strategy max_steps accelerator num_devices wandb_name
       use_torch_jit ckpt_folder].
  destruct jit, (String.eqb s "ddp"), (String.eqb s "fsdp2");
    eval_run; now repeat split.
Qed.

Lemma notebook_boundary_interactions_witness :
  (calm quiet /\ wandb_name notebook_config = None) /\
  let tr := calls (fst (run notebook_config quiet ∅)) in
  let p := pathlib.str (new_checkpoint notebook_config) in
  let upload := call_push_to_hub {| pretrained_path := p |}
                                 "<account/your-hf-repo>" in
  omap boundary tr
  = [EnvironmentVariable "HF_TOKEN";
     FilesystemPath (ckpt_folder notebook_config);
     HubRepository (model_name notebook_config);
     HubRepository (model_name notebook_config);
     HubRepository (model_name notebook_config);
     FilesystemPath p; FilesystemPath p; FilesystemPath p;
     HubRepository "<account/your-hf-repo>"] /\
  List.filter is_push tr = [upload] /\
  last tr = Some upload.
Proof.
  split; [split; [exact calm_quiet | reflexivity] |].
  exact (notebook_boundary_interactions notebook_config quiet ∅ calm_quiet
           eq_refl).
Defined.

(** * Further properties of the notebook *)

(** ** From the complete run to every run *)

(** What holds of every call of the complete run holds of every call of any
    run. *)
Lemma run_Forall (P : Call -> Prop) cfg w env :
  Forall P (calls (fst (run cfg quiet env))) ->
  Forall P (calls (fst (run cfg w env))).
Proof.
  intros H. destruct (run_prefix cfg w env) as [rest Hp].
  rewrite Hp in H. now apply Forall_app in H.
Qed.

Ltac forall_calls tac :=
  repeat first [ apply List.Forall_nil
               | apply List.Forall_cons; [tac |] ].

(** ** The two fine-tuning runs *)

(** The PEFT cell reuses the model and the trainer of the training cell:
    when no call raises, the whole run constructs exactly one model, one
    strategy and one trainer, and makes exactly two [finetune] calls, both
    with that model and that trainer and with equal data and optimizer
    arguments (sequence length 512, micro and global batch size 1, no loader
    workers, Adam with [lr=1e-5]), the first without an adapter and the
    second with LoRA of dimension 8 on ['*_proj']. *)
Theorem finetune_twice_same_trainer (cfg : Config) (w : World)
    (env : gmap string string) :
  calm w ->
  let tr := calls (fst (run cfg w env)) in
  let model := {| hf_model_name := model_name cfg |} in
  exists trainer,
    List.filter is_model_construction tr
    = [call_HFAutoModelForCausalLM (model_name cfg)] /\
    List.filter is_strategy_construction tr
    = [strategy_call (trainer_strategy trainer)] /\
    List.filter is_trainer_construction tr = [call_Trainer trainer] /\
    let data :=
      {| dm_tokenizer := {| tokenizer_source := model_name cfg |};
         dm_seq_length := 512;
         dm_micro_batch_size := 1;
         dm_global_batch_size := 1;
         dm_num_workers := 0;
         dm_dataset_kwargs := [("sanity_check_dist_workers", false);
                               ("get_attention_mask_from_fusion", true)] |} in
    let optim := fdl_built {| optim_lr := float_literal "1e-5" |} in
    List.filter is_finetune tr
    = [call_finetune model data trainer optim None;
       call_finetune model data trainer optim
         (Some {| target_modules := ["*_proj"]; lora_dim := 8 |})].
Proof.
  intros H. rewrite (run_calm _ _ _ H). cbv zeta.
  split_config cfg; eval_run;
    (eexists; split; [reflexivity |]; split; [| split; reflexivity];
     reflexivity).
Qed.

Lemma finetune_twice_same_trainer_witness :
  calm quiet /\
  let tr := calls (fst (run notebook_config quiet ∅)) in
  exists trainer,
    List.filter is_trainer_construction tr = [call_Trainer trainer] /\
    List.filter is_model_construction tr
    = [call_HFAutoModelForCausalLM "meta-llama/Llama-3.2-1B"] /\
    Forall (fun c => match c with
                     | call_finetune model _ t _ _ =>
                         model = {| hf_model_name := "meta-llama/Llama-3.2-1B" |}
                         /\ t = trainer
                     | _ => True
                     end) (List.filter is_finetune tr) /\
    length (List.filter is_finetune tr) = 2%nat.
Proof.
  split; [exact calm_quiet |].
  destruct (finetune_twice_same_trainer notebook_config quiet ∅ calm_quiet)
    as (trainer & Hm & _ & Ht & Hf).
  exists trainer. cbv zeta in Hf |- *.
  split; [exact Ht |]. split; [exact Hm |].
  rewrite Hf. split; [now repeat constructor | reflexivity].
Defined.

(** In every run, every [finetune] call, the one with the LoRA adapter
    included, gets a trainer whose strategy saves through the checkpoint IO
    of the fine-tuned model itself with [adapter_only=False]: the notebook
    never asks for adapter-only checkpoints. *)
Theorem finetune_full_checkpoint_io (cfg : Config) (w : World)
    (env : gmap string string) :
  Forall full_checkpoint_io (calls (fst (run cfg w env))).
Proof.
  apply run_Forall.
  split_config cfg; eval_run; forall_calls ltac:(cbn; auto).
Qed.

(** ** Logger and callbacks *)

(** In every run a [WandbLogger] is built only when [wandb_name] is set,
    with project ["nemo_automodel"] and that name, and the trainer's logger
    is that logger, or [None] when [wandb_name] is [None]; when no call
    raises and [wandb_name] is set, the logger is built before anything
    else of the training cell. *)
Theorem logger_only_when_named (cfg : Config) (w : World)
    (env : gmap string string) :
  Forall (logger_as_configured cfg) (calls (fst (run cfg w env))) /\
  (calm w ->
   forall name, wandb_name cfg = Some name ->
     calls (fst (run cfg w env)) !! 1%nat
     = Some (call_WandbLogger {| wandb_project := "nemo_automodel";
                                 wandb_run_name := name |})).
Proof.
  split.
  - apply run_Forall.
    split_config cfg; eval_run; forall_calls ltac:(cbn; auto).
  - intros H name Hn. rewrite (run_calm _ _ _ H).
    destruct cfg as [mn s ms acc nd wn jit cf]. cbn in Hn. subst wn.
    unfold run, notebook, cell_train, make_strategy.
    cbn [model_name strategy max_steps accelerator num_devices wandb_name
         use_torch_jit ckpt_folder].
    destruct jit, (String.eqb s "ddp"), (String.eqb s "fsdp2");
      eval_run; reflexivity.
Qed.

Lemma logger_only_when_named_witness :
  let cfg := {| model_name := "google/gemma-2b"; strategy := "ddp";
                max_steps := 10; accelerator := "gpu"; num_devices := 1;
                wandb_name := Some "run-1"; use_torch_jit := false;
                ckpt_folder := "ckpts" |} in
  (calm quiet /\ wandb_name cfg = Some "run-1") /\
  calls (fst (run cfg quiet ∅)) !! 1%nat
  = Some (call_WandbLogger {| wandb_project := "nemo_automodel";
                              wandb_run_name := "run-1" |}).
Proof.
  intros cfg. split; [split; [exact calm_quiet | reflexivity] |].
  exact (proj2 (logger_only_when_named cfg quiet ∅) calm_quiet "run-1"
           eq_refl).
Defined.

(** In every run the trainer's callbacks are the JIT transform (only when
    [use_torch_jit] is set, with [use_torch=True], [dynamic=False] and
    [use_thunder=False]) followed by the checkpoint callback, which is
    always present and always last; no JIT object is built otherwise. *)
Theorem callbacks_end_with_checkpoint (cfg : Config) (w : World)
    (env : gmap string string) :
  Forall (callbacks_as_configured cfg) (calls (fst (run cfg w env))).
Proof.
  apply run_Forall.
  split_config cfg; eval_run; forall_calls ltac:(cbn; auto).
Qed.

(** The checkpoint interval handed to [nl.ModelCheckpoint] is
    [max_steps // 2]: twice the interval is [max_steps] or [max_steps - 1],
    so the interval is at least 1 exactly when [max_steps] is at least 2,
    and it is 0 for [max_steps = 1]. *)
Theorem checkpoint_interval_half (cfg : Config) (w : World)
    (env : gmap string string) (every : Z) (dirpath : string) :
  In (call_ModelCheckpoint every dirpath) (calls (fst (run cfg w env))) ->
  2 * every <= max_steps cfg < 2 * every + 2 /\
  (1 <= every <-> 2 <= max_steps cfg) /\
  (max_steps cfg = 1 -> every = 0).
Proof.
  intros Hin.
  assert (F : Forall (interval_is_half cfg) (calls (fst (run cfg w env)))).
  { apply run_Forall.
    split_config cfg; eval_run;
      forall_calls ltac:(first [ exact I
                               | cbn [interval_is_half max_steps];
                                 pose proof (Z.div_mod ms 2 ltac:(lia));
                                 pose proof (Z.mod_pos_bound ms 2 ltac:(lia));
                                 lia ]). }
  pose proof (proj1 (List.Forall_forall _ _) F _ Hin) as Hh. cbn in Hh. lia.
Qed.

Lemma checkpoint_interval_half_witness :
  In (call_ModelCheckpoint 50 "/opt/checkpoints/automodel_experiments/")
     (calls (fst (run notebook_config quiet ∅))) /\
  2 * 50 <= max_steps notebook_config < 2 * 50 + 2.
Proof.
  assert (Hin : In (call_ModelCheckpoint 50
                      "/opt/checkpoints/automodel_experiments/")
                   (calls (fst (run notebook_config quiet ∅))))
    by (vm_compute; find_in).
  split; [exact Hin |].
  exact (proj1 (checkpoint_interval_half notebook_config quiet ∅ 50 _ Hin)).
Defined.

(** In every run, a trainer built with the FSDP2 strategy has a strategy
    whose [data_parallel_size] is the trainer's own [devices] (the notebook
    passes [num_nodes = 1]) and whose [tensor_parallel_size] is 1. *)
Theorem fsdp2_shards_over_trainer_devices (cfg : Config) (w : World)
    (env : gmap string string) :
  Forall fsdp2_matches_devices (calls (fst (run cfg w env))).
Proof.
  apply run_Forall.
  split_config cfg; eval_run;
    forall_calls ltac:(first [ exact I
                             | cbn [fsdp2_matches_devices trainer_strategy
                                    trainer_devices];
                               split; [apply Z.mul_1_r | reflexivity] ]).
Qed.

(** The [accelerator] variable of the parameter cell is never used: the
    notebook runs the same, call for call, whatever it is set to (the
    trainer always gets the literal ["gpu"]). *)
Theorem accelerator_is_ignored (cfg : Config) (other : string) (w : World)
    (env : gmap string string) :
  run (with_accelerator other cfg) w env = run cfg w env /\
  Forall (fun c => match c with
                   | call_Trainer t => trainer_accelerator t = "gpu"
                   | _ => True
                   end) (calls (fst (run cfg w env))).
Proof.
  split.
  - destruct cfg. reflexivity.
  - apply run_Forall.
    split_config cfg; eval_run; forall_calls ltac:(cbn; auto).
Qed.

(** ** The process environment *)

Lemma bind_raised {A B} (m : M A) (k : A -> M B) w st st' e :
  m w st = (st', Raised e) -> (m ≫= k) w st = (st', Raised e).
Proof. intros H. unfold mbind, M_bind. now rewrite H. Qed.

Lemma environ_steps_ret {A} (a : A) : environ_steps (mret a).
Proof. intros w st st' o H. injection H as <- <-. now left. Qed.

Lemma environ_steps_ext {A} (c : Call) (v : A) : environ_steps (ext c v).
Proof.
  intros w st st' o H. unfold ext in H.
  destruct (raises w (calls st) c); injection H as <- <-; now left.
Qed.

Lemma environ_steps_token :
  environ_steps (set_environ "HF_TOKEN" "<HF_TOKEN>").
Proof. intros w st st' o H. injection H as <- <-. now right. Qed.

Lemma environ_steps_bind {A B} (m : M A) (k : A -> M B) :
  environ_steps m -> (forall a, environ_steps (k a)) ->
  environ_steps (m ≫= k).
Proof.
  intros Hm Hk w st st' o H. unfold mbind, M_bind in H.
  destruct (m w st) as [st1 [a|e]] eqn:Em.
  - destruct (Hm _ _ _ _ Em) as [E1|E1], (Hk a _ _ _ _ H) as [E2|E2];
      rewrite E2, E1; auto.
    right. apply insert_insert_eq.
  - injection H as <- <-. exact (Hm _ _ _ _ Em).
Qed.

Ltac environ_steps :=
  repeat first
    [ apply environ_steps_ret
    | apply environ_steps_ext
    | apply environ_steps_token
    | apply environ_steps_bind; [| intros ?]
    | match goal with
      | |- environ_steps (match ?x with _ => _ end) => destruct x
      | |- environ_steps (let _ := _ in _) => cbv zeta
      end ].

Lemma environ_steps_notebook cfg : environ_steps (notebook cfg).
Proof. unfold_cells. environ_steps. Qed.

(** In every run, failing or not, the notebook leaves every environment
    variable other than [HF_TOKEN] as it found it; [HF_TOKEN] ends as the
    placeholder exactly when the assignment, the first call, did not raise,
    and keeps its old value (the run stopping there) when it did. *)
Theorem environ_only_token_changes (cfg : Config) (w : World)
    (env : gmap string string) :
  let st := fst (run cfg w env) in
  (forall key, key <> "HF_TOKEN" -> environ st !! key = env !! key) /\
  (raises w [] (call_environ_setitem "HF_TOKEN" "<HF_TOKEN>") = None ->
   environ st = <["HF_TOKEN" := "<HF_TOKEN>"]> env) /\
  (forall e,
     raises w [] (call_environ_setitem "HF_TOKEN" "<HF_TOKEN>") = Some e ->
     run cfg w env
     = ({| calls := [call_environ_setitem "HF_TOKEN" "<HF_TOKEN>"];
           environ := env |}, Raised e)).
Proof.
  cbv zeta. split; [| split].
  - intros key Hk. unfold run.
    destruct (notebook cfg w (init env)) as [st o] eqn:E.
    destruct (environ_steps_notebook cfg _ _ _ _ E) as [Ee|Ee];
      cbn in Ee |- *; rewrite Ee; [reflexivity |].
    now apply lookup_insert_ne.
  - intros Hr. unfold run, notebook.
    assert (Et : cell_token w (init env)
                 = ({| calls := [call_environ_setitem "HF_TOKEN" "<HF_TOKEN>"];
                       environ := <["HF_TOKEN" := "<HF_TOKEN>"]> env |},
                    Returned tt)).
    { unfold cell_token, environ_setitem, mbind, M_bind, ext, set_environ.
      cbn. now rewrite Hr. }
    rewrite (bind_returned _ _ _ _ _ _ Et).
    match goal with
    | |- environ (fst (?m w ?s)) = _ =>
        destruct (m w s) as [st o] eqn:E;
        assert (Hs : environ_steps m)
    end.
    { environ_steps. all: unfold_cells; environ_steps. }
    destruct (Hs _ _ _ _ E) as [Ee|Ee]; cbn in Ee |- *; rewrite Ee;
      [reflexivity | apply insert_insert_eq].
  - intros e Hr. unfold run, notebook.
    apply bind_raised.
    unfold cell_token, environ_setitem, mbind, M_bind, ext. cbn.
    now rewrite Hr.
Qed.

Lemma environ_only_token_changes_witness :
  let env : gmap string string :=
    {["HF_TOKEN" := "hf_from_shell"; "HOME" := "/root"]} in
  ("HOME" <> "HF_TOKEN" /\
   raises quiet [] (call_environ_setitem "HF_TOKEN" "<HF_TOKEN>") = None) /\
  environ (fst (run notebook_config quiet env)) !! "HOME" = env !! "HOME" /\
  environ (fst (run notebook_config quiet env))
  = <["HF_TOKEN" := "<HF_TOKEN>"]> env.
Proof.
  intros env.
  assert (H1 : "HOME" <> "HF_TOKEN") by discriminate.
  split; [split; [exact H1 | reflexivity] |].
  destruct (environ_only_token_changes notebook_config quiet env)
    as (Hf & Hs & _).
  split; [exact (Hf "HOME" H1) | exact (Hs eq_refl)].
Defined.

(** ** The upload comes last *)

(** Every run returns after calls that all returned, or raises at its last
    call, the first to raise. *)
Lemma run_stops_at_first_raise cfg w env :
  match snd (run cfg w env) with
  | Returned _ => all_ok w [] (calls (fst (run cfg w env)))
  | Raised e =>
      exists pre c, calls (fst (run cfg w env)) = pre ++ [c] /\
                    all_ok w [] pre /\ raises w pre c = Some e
  end.
Proof.
  unfold run.
  destruct (notebook cfg w (init env)) as [st o] eqn:E.
  destruct (propagates_notebook cfg _ _ _ _ E) as (new & En & Ho).
  cbn in En, Ho |- *. rewrite En. exact Ho.
Qed.

Lemma all_ok_prefix w base l1 l2 :
  all_ok w base (l1 ++ l2) -> all_ok w base l1.
Proof.
  intros H pre c post E. apply (H pre c (post ++ l2)).
  rewrite E. now rewrite <- app_assoc.
Qed.

(** A list that starts [T0 ++ [x]] and already holds an element of a kind
    absent from [T0] is all of it. *)
Lemma prefix_reaches_last (P : Call -> bool) (T0 : list Call) :
  forall tr rest x y,
    tr ++ rest = T0 ++ [x] ->
    forallb (fun c => negb (P c)) T0 = true ->
    In y tr -> P y = true -> rest = [].
Proof.
  induction T0 as [|a T0 IH]; intros tr rest x y E F Hy Py.
  - destruct tr as [|b tr]; [destruct Hy |].
    injection E as _ E. now apply app_eq_nil in E.
  - destruct tr as [|b tr]; [destruct Hy |].
    injection E as -> E. cbn in F. apply andb_prop in F as [Fa F].
    destruct Hy as [<-|Hy].
    + rewrite Py in Fa. discriminate Fa.
    + exact (IH _ _ _ _ E F Hy Py).
Qed.

(** The complete run ends with its only upload. *)
Lemma quiet_run_ends_with_upload cfg env :
  exists T0 u,
    calls (fst (run cfg quiet env)) = T0 ++ [u] /\
    forallb (fun c => negb (is_push c)) T0 = true.
Proof.
  split_config cfg; eval_run;
    match goal with
    | |- exists T0 u, ?l = _ /\ _ =>
        exists (removelast l); eexists; split; reflexivity
    end.
Qed.

(** [push_to_hub] is attempted only at the very end of a run in which every
    earlier call has returned: if the upload appears among the calls of a
    run, in whatever world, then it is the last call, none of the calls
    before it raised, and the run went through all the stages, both
    fine-tuning runs and the generation included. *)
Theorem upload_only_after_everything (cfg : Config) (w : World)
    (env : gmap string string) (model : PretrainedModel) (repo : string) :
  In (call_push_to_hub model repo) (calls (fst (run cfg w env))) ->
  exists before,
    calls (fst (run cfg w env)) = before ++ [call_push_to_hub model repo] /\
    all_ok w [] before /\
    omap stage (calls (fst (run cfg w env))) = notebook_stages.
Proof.
  intros Hin.
  destruct (quiet_run_ends_with_upload cfg env) as (T0 & u & ET & F).
  destruct (run_prefix cfg w env) as [rest Hp].
  destruct (notebook_quiet_run cfg env) as (_ & Hs & _ & _).
  rewrite ET in Hp. symmetry in Hp.
  pose proof (prefix_reaches_last is_push T0 _ _ _ _ Hp F Hin eq_refl) as ->.
  rewrite app_nil_r in Hp.
  assert (Hu : u = call_push_to_hub model repo).
  { rewrite Hp in Hin. apply in_app_or in Hin as [Hin|[Hin|[]]].
    - rewrite forallb_forall in F. specialize (F _ Hin). discriminate F.
    - exact Hin. }
  subst u. exists T0. split; [exact Hp |]. split.
  - pose proof (run_stops_at_first_raise cfg w env) as Hx.
    rewrite Hp in Hx.
    destruct (snd (run cfg w env)) as [[]|e].
    + exact (all_ok_prefix _ _ _ _ Hx).
    + destruct Hx as (pre & c & E & Ok & _).
      apply app_inj_tail in E as [-> _]. exact Ok.
  - rewrite <- Hs. f_equal. rewrite Hp. now rewrite ET.
Qed.

Lemma upload_only_after_everything_witness :
  let p := "/opt/checkpoints/automodel_experiments/default--val_loss=0.0000-epoch=1-step=100-last/hf_weights" in
  let upload := call_push_to_hub {| pretrained_path := p |}
                                 "<account/your-hf-repo>" in
  In upload (calls (fst (run notebook_config quiet ∅))) /\
  exists before,
    calls (fst (run notebook_config quiet ∅)) = before ++ [upload] /\
    all_ok quiet [] before /\
    omap stage (calls (fst (run notebook_config quiet ∅))) = notebook_stages.
Proof.
  intros p upload.
  assert (Hin : In upload (calls (fst (run notebook_config quiet ∅))))
    by (vm_compute; find_in).
  split; [exact Hin |].
  exact (upload_only_after_everything notebook_config quiet ∅ _ _ Hin).
Defined.

(** ** Keyword arguments of [_create_dataloader] *)

Lemma existsb_keyword k :
  existsb (String.eqb k) explicit_keywords = true <-> In k explicit_keywords.
Proof.
  rewrite existsb_exists. split.
  - intros (x & Hx & E). apply String.eqb_eq in E. now subst x.
  - intros H. exists k. split; [exact H | apply String.eqb_refl].
Qed.

Lemma duplicate_keyword_first pre key value post :
  In key explicit_keywords ->
  Forall (fun kv => ~ In (fst kv) explicit_keywords) pre ->
  duplicate_keyword (pre ++ (key, value) :: post) = Some key.
Proof.
  intros Hk. unfold duplicate_keyword.
  induction pre as [|[k v] pre IH]; intros F; cbn [app find fst].
  - now rewrite (proj2 (existsb_keyword key) Hk).
  - inversion F as [|? ? Hn F']; subst. cbn [fst] in Hn.
    destruct (existsb (String.eqb k) explicit_keywords) eqn:E.
    + apply existsb_keyword in E. contradiction.
    + exact (IH F').
Qed.

Lemma duplicate_keyword_none kwargs :
  Forall (fun kv => ~ In (fst kv) explicit_keywords) kwargs ->
  duplicate_keyword kwargs = None.
Proof.
  unfold duplicate_keyword.
  induction kwargs as [|[k v] kwargs IH]; intros F; cbn [find fst];
    [reflexivity |].
  inversion F as [|? ? Hn F']; subst. cbn [fst] in Hn.
  destruct (existsb (String.eqb k) explicit_keywords) eqn:E.
  - apply existsb_keyword in E. contradiction.
  - exact (IH F').
Qed.

(** An extra keyword argument that repeats one of the five keywords the
    method spells out ([num_workers], [pin_memory], [persistent_workers],
    [collate_fn], [batch_size]) makes the call raise [TypeError], with
    Python's message for the callee [DataLoader] naming the first such key,
    before [DataLoader] is reached: no library call is made and the state is
    unchanged, in every world and whatever the mode. *)
Theorem create_dataloader_repeated_keyword
    (self : DataModuleSelf) (dataset : Dataset) (mode : string)
    (pre post : list (string * PyValue)) (key : string) (value : PyValue)
    (w : World) (st : State) :
  In key explicit_keywords ->
  Forall (fun kv => ~ In (fst kv) explicit_keywords) pre ->
  _create_dataloader self dataset mode (pre ++ (key, value) :: post) w st
  = (st, Raised {| exn_class := "TypeError";
                   exn_msg := "torch.utils.data.dataloader.DataLoader() got multiple values for keyword argument '"
                              +:+ key +:+ "'" |}).
Proof.
  intros Hk F. unfold _create_dataloader.
  now rewrite (duplicate_keyword_first _ _ _ _ Hk F).
Qed.

Lemma create_dataloader_repeated_keyword_witness :
  let self := {| num_workers := 0; pin_memory := true;
                 persistent_workers := false; micro_batch_size := 1 |} in
  let dataset := {| dataset_id := 7; collate_fn := collate_fn_of 7 |} in
  (In "pin_memory" explicit_keywords /\
   Forall (fun kv : string * PyValue => ~ In (fst kv) explicit_keywords)
          [("shuffle", PyBool true)]) /\
  _create_dataloader self dataset "validation"
    [("shuffle", PyBool true); ("pin_memory", PyBool false);
     ("batch_size", PyInt 4)] quiet (init ∅)
  = (init ∅,
     Raised {| exn_class := "TypeError";
               exn_msg := "torch.utils.data.dataloader.DataLoader() got multiple values for keyword argument 'pin_memory'" |}).
Proof.
  intros self dataset.
  assert (Hk : In "pin_memory" explicit_keywords) by (cbn; tauto).
  assert (F : Forall (fun kv : string * PyValue =>
                        ~ In (fst kv) explicit_keywords)
                     [("shuffle", PyBool true)]).
  { constructor; [| constructor]. cbn. intros H.
    repeat (destruct H as [H|H]; [discriminate H |]). exact H. }
  split; [split; [exact Hk | exact F] |].
  exact (create_dataloader_repeated_keyword self dataset "validation"
           [("shuffle", PyBool true)] [("batch_size", PyInt 4)]
           "pin_memory" (PyBool false) quiet (init ∅) Hk F).
Defined.

(** When no extra keyword argument repeats a spelled-out keyword, the method
    makes exactly one library call, in every world: [DataLoader] with the
    five settings and the extra arguments handed on unchanged and in order.
    The outcome is the loader, or the exception [DataLoader] raised; the
    mode plays no part. *)
Theorem create_dataloader_one_call
    (self : DataModuleSelf) (dataset : Dataset) (mode : string)
    (kwargs : list (string * PyValue)) (w : World) (st : State) :
  Forall (fun kv => ~ In (fst kv) explicit_keywords) kwargs ->
  let dl := {| dl_dataset := dataset;
               dl_num_workers := num_workers self;
               dl_pin_memory := pin_memory self;
               dl_persistent_workers := persistent_workers self;
               dl_collate_fn := collate_fn dataset;
               dl_batch_size := micro_batch_size self;
               dl_kwargs := kwargs |} in
  _create_dataloader self dataset mode kwargs w st
  = ({| calls := calls st ++ [call_DataLoader dl]; environ := environ st |},
     match raises w (calls st) (call_DataLoader dl) with
     | Some e => Raised e
     | None => Returned dl
     end).
Proof.
  intros F dl. unfold _create_dataloader.
  rewrite (duplicate_keyword_none _ F). unfold ext. fold dl.
  now destruct (raises w (calls st) (call_DataLoader dl)).
Qed.

Lemma create_dataloader_one_call_witness :
  let self := {| num_workers := 0; pin_memory := true;
                 persistent_workers := false; micro_batch_size := 1 |} in
  let dataset := {| dataset_id := 7; collate_fn := collate_fn_of 7 |} in
  Forall (fun kv : string * PyValue => ~ In (fst kv) explicit_keywords)
         [("shuffle", PyBool true)] /\
  calls (fst (_create_dataloader self dataset "train"
                [("shuffle", PyBool true)] quiet (init ∅)))
  = [call_DataLoader
       {| dl_dataset := dataset; dl_num_workers := 0; dl_pin_memory := true;
          dl_persistent_workers := false; dl_collate_fn := collate_fn_of 7;
          dl_batch_size := 1; dl_kwargs := [("shuffle", PyBool true)] |}].
Proof.
  intros self dataset.
  assert (F : Forall (fun kv : string * PyValue =>
                        ~ In (fst kv) explicit_keywords)
                     [("shuffle", PyBool true)]).
  { constructor; [| constructor]. cbn. intros H.
    repeat (destruct H as [H|H]; [discriminate H |]). exact H. }
  split; [exact F |].
  exact (f_equal (fun r => calls (fst r))
           (create_dataloader_one_call self dataset "train"
              [("shuffle", PyBool true)] quiet (init ∅) F)).
Defined.

(** ** The path of the checkpoint *)

(** ** Strings *)

Lemma append_cons c s t : String c s +:+ t = String c (s +:+ t).
Proof. reflexivity. Qed.

Lemma append_assoc (a b c : string) : (a +:+ b) +:+ c = a +:+ (b +:+ c).
Proof.
  induction a as [|x a IH]; [reflexivity |].
  rewrite !append_cons. now rewrite IH.
Qed.

Lemma append_nil_r (a : string) : a +:+ EmptyString = a.
Proof.
  induction a as [|x a IH]; [reflexivity |].
  rewrite append_cons. now rewrite IH.
Qed.

Lemma append_length (a b : string) :
  String.length (a +:+ b) = (String.length a + String.length b)%nat.
Proof.
  induction a as [|x a IH]; [reflexivity |].
  rewrite append_cons. cbn. now rewrite IH.
Qed.

Lemma append_inv_tail (a b s : string) : a +:+ s = b +:+ s -> a = b.
Proof.
  revert b. induction a as [|x a IH]; intros [|y b] H.
  - reflexivity.
  - apply (f_equal String.length) in H.
    rewrite !append_length in H. cbn in H. lia.
  - apply (f_equal String.length) in H.
    rewrite !append_length in H. cbn in H. lia.
  - rewrite !append_cons in H. injection H as -> H. f_equal. now apply IH.
Qed.

(** ** Splitting at the separator *)

Lemma split_sep_nonempty s : pathlib.split_sep s <> [].
Proof.
  destruct s as [|c s]; cbn; [discriminate |].
  destruct (Ascii.eqb c "/"); [discriminate |].
  destruct (pathlib.split_sep s); discriminate.
Qed.

Lemma split_sep_app_sep x y :
  pathlib.split_sep (x +:+ String "/" y)
  = pathlib.split_sep x ++ pathlib.split_sep y.
Proof.
  induction x as [|c x IH]; [reflexivity |].
  rewrite append_cons. cbn [pathlib.split_sep].
  destruct (Ascii.eqb c "/").
  - now rewrite IH.
  - rewrite IH. pose proof (split_sep_nonempty x) as Hx.
    destruct (pathlib.split_sep x); [contradiction | reflexivity].
Qed.

Lemma split_sep_no_sep x : no_sep x = true -> pathlib.split_sep x = [x].
Proof.
  induction x as [|c x IH]; [reflexivity |].
  cbn. destruct (Ascii.eqb c "/"); [discriminate |].
  cbn. intros H. now rewrite (IH H).
Qed.

Lemma ends_with_sep_inv a :
  pathlib.ends_with_sep a = true -> exists a0, a = a0 +:+ "/".
Proof.
  induction a as [|c a IH]; [discriminate |].
  destruct a as [|d a].
  - cbn. intros H. apply Ascii.eqb_eq in H. subst c. now exists EmptyString.
  - intros H. destruct (IH H) as [a0 E]. exists (String c a0).
    rewrite append_cons. now rewrite <- E.
Qed.

Lemma ends_with_sep_app a :
  pathlib.ends_with_sep (a +:+ "/") = true.
Proof.
  induction a as [|c a IH]; [reflexivity |].
  rewrite append_cons. destruct a as [|d a]; [exact IH |].
  rewrite append_cons in *. exact IH.
Qed.

Lemma append_nil_l (s : string) : EmptyString +:+ s = s.
Proof. reflexivity. Qed.

Lemma no_sep_app a b : no_sep (a +:+ b) = no_sep a && no_sep b.
Proof.
  induction a as [|c a IH]; [reflexivity |].
  rewrite append_cons. cbn. rewrite IH. now rewrite andb_assoc.
Qed.

Lemma no_sep_starts s : no_sep s = true -> pathlib.starts_with_sep s = false.
Proof.
  destruct s as [|c s]; [reflexivity |]. cbn.
  now destruct (Ascii.eqb c "/").
Qed.

Lemma starts_with_sep_app s t :
  s <> EmptyString ->
  pathlib.starts_with_sep (s +:+ t) = pathlib.starts_with_sep s.
Proof. destruct s; [contradiction | reflexivity]. Qed.

(** ** The root of a path *)

Lemma splitroot_app a y :
  a <> EmptyString ->
  pathlib.starts_with_sep y = false \/ pathlib.ends_with_sep a = false ->
  pathlib.splitroot (a +:+ y)
  = (fst (pathlib.splitroot a), snd (pathlib.splitroot a) +:+ y).
Proof.
  intros Ha H.
  destruct a as [|c1 [|c2 [|c3 a]]]; [contradiction | ..];
    rewrite ?append_cons, ?append_nil_l; cbn in H |- *.
  - destruct (Ascii.eqb c1 "/"); [| reflexivity].
    destruct H as [H|H]; [| discriminate H].
    destruct y as [|d y]; [reflexivity |]. cbn in H. now rewrite H.
  - destruct (Ascii.eqb c1 "/"); [| reflexivity].
    destruct (Ascii.eqb c2 "/"); [| reflexivity].
    destruct H as [H|H]; [| discriminate H].
    destruct y as [|d y]; [reflexivity |]. cbn in H. now rewrite H.
  - destruct (Ascii.eqb c1 "/"); [| reflexivity].
    destruct (Ascii.eqb c2 "/"); [| reflexivity].
    now destruct (Ascii.eqb c3 "/").
Qed.

Lemma splitroot_rel_ends a :
  a <> EmptyString -> pathlib.ends_with_sep a = true ->
  snd (pathlib.splitroot a) = EmptyString \/
  pathlib.ends_with_sep (snd (pathlib.splitroot a)) = true.
Proof.
  intros Ha H.
  destruct a as [|c1 [|c2 [|c3 a]]]; [contradiction | ..]; cbn in H |- *.
  - rewrite H. now left.
  - rewrite H. destruct (Ascii.eqb c1 "/"); [now left |].
    right. cbn. exact H.
  - destruct (Ascii.eqb c1 "/"); [| right; cbn; exact H].
    destruct (Ascii.eqb c2 "/"); [| right; cbn; exact H].
    destruct (Ascii.eqb c3 "/") eqn:E3; right; cbn; rewrite ?E3; exact H.
Qed.

Lemma splitroot_relative s :
  pathlib.starts_with_sep s = false -> pathlib.splitroot s = (EmptyString, s).
Proof.
  destruct s as [|c s]; [reflexivity |]. cbn. intros H. now rewrite H.
Qed.

(** ** Digits *)

Lemma no_sep_pretty_N_go x : forall s,
  no_sep s = true -> no_sep (pretty_N_go x s) = true.
Proof.
  induction (N.lt_wf_0 x) as [x _ IH]; intros s Hs.
  assert (x = 0 \/ 0 < x)%N as [->|Hx] by lia.
  - now rewrite pretty_N_go_0.
  - rewrite pretty_N_go_step by exact Hx. apply IH.
    + apply N.div_lt; lia.
    + cbn. rewrite Hs. unfold pretty_N_char.
      now repeat case_match.
Qed.

Lemma no_sep_str_int n : no_sep (str_int n) = true.
Proof.
  unfold str_int, pretty, pretty_Z.
  assert (Hp : forall p : positive, no_sep (pretty p) = true).
  { intros p. unfold pretty, pretty_positive, pretty, pretty_N.
    case_decide; [reflexivity |]. now apply no_sep_pretty_N_go. }
  destruct n as [|p|p]; [reflexivity | apply Hp |].
  rewrite no_sep_app. now rewrite Hp.
Qed.

Lemma no_sep_checkpoint_subdir n : no_sep (checkpoint_subdir n) = true.
Proof.
  unfold checkpoint_subdir. rewrite !no_sep_app.
  now rewrite no_sep_str_int.
Qed.

Lemma is_part_checkpoint_subdir n :
  pathlib.is_part (checkpoint_subdir n) = true.
Proof. reflexivity. Qed.

(** ** The parts of the checkpoint path *)

Lemma parts_of_subdir sub :
  no_sep sub = true -> pathlib.is_part sub = true ->
  filter (fun x => pathlib.is_part x = true)
         (pathlib.split_sep (sub +:+ "/hf_weights"))
  = [sub; "hf_weights"].
Proof.
  intros Hn Hp.
  change (sub +:+ "/hf_weights") with (sub +:+ String "/" "hf_weights").
  rewrite split_sep_app_sep, (split_sep_no_sep _ Hn).
  cbn [app]. rewrite filter_cons_True by exact Hp.
  reflexivity.
Qed.

Lemma truediv_subdir a sub :
  no_sep sub = true -> pathlib.is_part sub = true ->
  let p := pathlib.truediv (pathlib.Path a) (sub +:+ "/hf_weights") in
  pathlib.root p = pathlib.root (pathlib.Path a) /\
  pathlib.parts p = pathlib.parts (pathlib.Path a) ++ [sub; "hf_weights"].
Proof.
  intros Hn Hp p.
  assert (Hsub : sub <> EmptyString) by (intros ->; discriminate Hp).
  assert (Hk : pathlib.starts_with_sep (sub +:+ "/hf_weights") = false).
  { rewrite starts_with_sep_app by exact Hsub. now apply no_sep_starts. }
  pose proof (parts_of_subdir _ Hn Hp) as Hps.
  subst p. revert Hk Hps. generalize (sub +:+ "/hf_weights"). intros k Hk Hps.
  unfold pathlib.root, pathlib.parts, pathlib.joined.
  cbn [pathlib.truediv pathlib.Path pathlib.raw_paths app foldl].
  unfold pathlib.posixpath_join. rewrite Hk.
  destruct (String.eqb_spec a EmptyString) as [->|Ha].
  - cbn [orb]. rewrite append_nil_l, (splitroot_relative _ Hk).
    cbn [fst snd]. split; [reflexivity |]. now rewrite Hps.
  - cbn [orb]. destruct (pathlib.ends_with_sep a) eqn:He.
    + rewrite splitroot_app by (try exact Ha; now left).
      cbn [fst snd]. split; [reflexivity |].
      destruct (splitroot_rel_ends a Ha He) as [Er|Er].
      * rewrite Er, append_nil_l. now rewrite Hps.
      * destruct (ends_with_sep_inv _ Er) as [r0 ->].
        rewrite append_assoc.
        change ("/" +:+ k) with (String "/" k).
        change (r0 +:+ "/") with (r0 +:+ String "/" EmptyString).
        rewrite !split_sep_app_sep, !filter_app, Hps. f_equal.
        change (pathlib.split_sep EmptyString) with [EmptyString].
        rewrite filter_cons_False by (cbn; discriminate).
        now rewrite filter_nil, app_nil_r.
    + change (a +:+ "/" +:+ k) with (a +:+ String "/" k).
      rewrite splitroot_app by (try exact Ha; now right).
      cbn [fst snd]. split; [reflexivity |].
      now rewrite split_sep_app_sep, filter_app, Hps.
Qed.

Lemma new_checkpoint_truediv cfg :
  new_checkpoint cfg
  = pathlib.truediv (pathlib.Path (ckpt_folder cfg))
      (checkpoint_subdir (max_steps cfg) +:+ "/hf_weights").
Proof.
  unfold new_checkpoint, checkpoint_subdir. f_equal.
  rewrite !append_assoc. reflexivity.
Qed.

Lemma concat_app_two pa s h :
  String.concat "/" (pa ++ [s; h])
  = match pa with
    | [] => EmptyString
    | _ => String.concat "/" pa +:+ "/"
    end +:+ s +:+ "/" +:+ h.
Proof.
  induction pa as [|x pa IH]; [reflexivity |].
  destruct pa as [|y pa].
  - cbn [app String.concat]. now rewrite !append_assoc.
  - change (String.concat "/" ((x :: y :: pa) ++ [s; h]))
      with (x +:+ "/" +:+ String.concat "/" ((y :: pa) ++ [s; h])).
    rewrite IH.
    change (String.concat "/" (x :: y :: pa))
      with (x +:+ "/" +:+ String.concat "/" (y :: pa)).
    now rewrite !append_assoc.
Qed.

Lemma str_of_parts p :
  pathlib.parts p <> [] ->
  pathlib.str p = pathlib.root p +:+ String.concat "/" (pathlib.parts p).
Proof.
  unfold pathlib.str. intros H.
  destruct (pathlib.root p), (pathlib.parts p); try reflexivity.
  contradiction.
Qed.

Lemma checkpoint_path_shape (cfg : Config) :
  let folder := pathlib.Path (ckpt_folder cfg) in
  let sub := checkpoint_subdir (max_steps cfg) in
  pathlib.root (new_checkpoint cfg) = pathlib.root folder /\
  pathlib.parts (new_checkpoint cfg)
  = pathlib.parts folder ++ [sub; "hf_weights"] /\
  pathlib.str (new_checkpoint cfg)
  = folder_prefix (ckpt_folder cfg) +:+ sub +:+ "/hf_weights".
Proof.
  cbv zeta. rewrite new_checkpoint_truediv.
  destruct (truediv_subdir (ckpt_folder cfg) _
              (no_sep_checkpoint_subdir (max_steps cfg))
              (is_part_checkpoint_subdir (max_steps cfg))) as [Hr Hp].
  split; [exact Hr |]. split; [exact Hp |].
  rewrite str_of_parts.
  2: { rewrite Hp. intros E. apply app_eq_nil in E as [_ E]. discriminate E. }
  rewrite Hr, Hp, concat_app_two. unfold folder_prefix. cbv zeta.
  destruct (pathlib.parts (pathlib.Path (ckpt_folder cfg)));
    now rewrite ?append_assoc, ?append_nil_r.
Qed.

(** Whatever [ckpt_folder] and [max_steps] are, the path the notebook loads
    from has the root of the checkpoint folder and the parts of the
    checkpoint folder followed by exactly two parts of the notebook's own
    making, ["default--val_loss=0.0000-epoch=1-step=<max_steps>-last"] and
    ["hf_weights"]; as a string it is the normalised folder, that directory
    name and ["/hf_weights"]. *)
Theorem new_checkpoint_shape (cfg : Config) :
  let folder := pathlib.Path (ckpt_folder cfg) in
  let sub := checkpoint_subdir (max_steps cfg) in
  pathlib.root (new_checkpoint cfg) = pathlib.root folder /\
  pathlib.parts (new_checkpoint cfg)
  = pathlib.parts folder ++ [sub; "hf_weights"] /\
  pathlib.str (new_checkpoint cfg)
  = folder_prefix (ckpt_folder cfg) +:+ sub +:+ "/hf_weights".
Proof. exact (checkpoint_path_shape cfg). Qed.

(** The path the notebook loads from changes whenever [max_steps] does:
    with the same checkpoint folder, two different step counts never give
    the same path (a checkpoint trained with another [max_steps] is not the
    one read back). *)
Theorem new_checkpoint_depends_on_max_steps (cfg : Config) (n : Z) :
  n <> max_steps cfg ->
  pathlib.str (new_checkpoint (with_max_steps n cfg))
  <> pathlib.str (new_checkpoint cfg).
Proof.
  intros Hn E.
  destruct (checkpoint_path_shape cfg) as (_ & _ & E1).
  destruct (checkpoint_path_shape (with_max_steps n cfg)) as (_ & _ & E2).
  cbv zeta in E1, E2. rewrite E1, E2 in E. cbn [with_max_steps ckpt_folder max_steps] in E.
  apply (inj (String.append _)) in E.
  apply append_inv_tail in E. unfold checkpoint_subdir in E.
  apply (inj (String.append _)) in E.
  apply append_inv_tail in E.
  apply Hn. exact (inj pretty _ _ E).
Qed.

Lemma new_checkpoint_depends_on_max_steps_witness :
  10 <> max_steps notebook_config /\
  pathlib.str (new_checkpoint (with_max_steps 10 notebook_config))
  <> pathlib.str (new_checkpoint notebook_config).
Proof.
  assert (H : 10 <> max_steps notebook_config) by discriminate.
  split; [exact H |].
  exact (new_checkpoint_depends_on_max_steps notebook_config 10 H).
Defined.

(** With an empty folder the path is relative, with ["/"] it is not. *)
Example new_checkpoint_empty_folder :
  pathlib.str (new_checkpoint (with_ckpt_folder EmptyString notebook_config))
  = "default--val_loss=0.0000-epoch=1-step=100-last/hf_weights" /\
  pathlib.str (new_checkpoint (with_ckpt_folder "/" notebook_config))
  = "/default--val_loss=0.0000-epoch=1-step=100-last/hf_weights".
Proof. split; reflexivity. Qed.

(** A slash added at the end of a checkpoint folder that is not empty and
    does not end in one leaves the path the notebook loads from unchanged;
    the empty folder is different (see [new_checkpoint_empty_folder]). *)
Theorem new_checkpoint_trailing_slash (cfg : Config) :
  ckpt_folder cfg <> EmptyString ->
  pathlib.ends_with_sep (ckpt_folder cfg) = false ->
  pathlib.str (new_checkpoint (with_ckpt_folder (ckpt_folder cfg +:+ "/") cfg))
  = pathlib.str (new_checkpoint cfg).
Proof.
  intros Ha He.
  assert (Hj : pathlib.joined
                 (new_checkpoint (with_ckpt_folder (ckpt_folder cfg +:+ "/") cfg))
               = pathlib.joined (new_checkpoint cfg)).
  { rewrite !new_checkpoint_truediv.
    cbn [with_ckpt_folder ckpt_folder max_steps].
    unfold pathlib.joined.
    cbn [pathlib.truediv pathlib.Path pathlib.raw_paths app foldl].
    unfold pathlib.posixpath_join.
    rewrite starts_with_sep_app by discriminate.
    cbn [pathlib.starts_with_sep Ascii.eqb].
    rewrite (no_sep_starts _ (no_sep_checkpoint_subdir _)) || idtac.
    rewrite ends_with_sep_app, He, orb_true_r.
    destruct (String.eqb_spec (ckpt_folder cfg) EmptyString); [contradiction |].
    cbn [orb]. now rewrite !append_assoc. }
  unfold pathlib.str, pathlib.root, pathlib.parts. now rewrite Hj.
Qed.

Lemma new_checkpoint_trailing_slash_witness :
  let cfg := with_ckpt_folder "/opt/checkpoints/automodel_experiments"
               notebook_config in
  (ckpt_folder cfg <> EmptyString /\
   pathlib.ends_with_sep (ckpt_folder cfg) = false) /\
  pathlib.str (new_checkpoint (with_ckpt_folder (ckpt_folder cfg +:+ "/") cfg))
  = pathlib.str (new_checkpoint cfg).
Proof.
  intros cfg.
  assert (H1 : ckpt_folder cfg <> EmptyString) by discriminate.
  assert (H2 : pathlib.ends_with_sep (ckpt_folder cfg) = false)
    by reflexivity.
  split; [split; [exact H1 | exact H2] |].
  exact (new_checkpoint_trailing_slash cfg H1 H2).
Defined.

Lemma split_sep_all_no_sep s :
  Forall (fun x => no_sep x = true) (pathlib.split_sep s).
Proof.
  induction s as [|c s IH]; [now repeat constructor |].
  cbn [pathlib.split_sep]. destruct (Ascii.eqb c "/") eqn:Ec.
  - now constructor.
  - destruct (pathlib.split_sep s) as [|x xs].
    + repeat constructor. cbn. now rewrite Ec.
    + inversion IH as [|? ? Hx Hxs]; subst. constructor; [| exact Hxs].
      cbn. now rewrite Ec, Hx.
Qed.

Lemma splitroot_root a :
  pathlib.starts_with_sep (fst (pathlib.splitroot a))
  = pathlib.starts_with_sep a /\
  (pathlib.starts_with_sep a = false ->
   fst (pathlib.splitroot a) = EmptyString) /\
  (pathlib.starts_with_sep a = true ->
   fst (pathlib.splitroot a) <> EmptyString).
Proof.
  destruct a as [|c1 [|c2 [|c3 a]]]; cbn;
    repeat match goal with
           | |- context [Ascii.eqb ?c "/"] => destruct (Ascii.eqb c "/")
           end; cbn; repeat split; congruence.
Qed.

Lemma starts_with_sep_concat x xs :
  x <> EmptyString ->
  pathlib.starts_with_sep (String.concat "/" (x :: xs))
  = pathlib.starts_with_sep x.
Proof.
  intros Hx. destruct xs as [|y xs]; [reflexivity |].
  change (String.concat "/" (x :: y :: xs))
    with (x +:+ "/" +:+ String.concat "/" (y :: xs)).
  now apply starts_with_sep_app.
Qed.

(** The path the notebook loads from is absolute exactly when the
    checkpoint folder is: it starts with a slash if and only if
    [ckpt_folder] does, so a relative or empty folder is resolved against
    the working directory of the kernel. *)
Theorem new_checkpoint_absolute_iff (cfg : Config) :
  pathlib.starts_with_sep (pathlib.str (new_checkpoint cfg))
  = pathlib.starts_with_sep (ckpt_folder cfg).
Proof.
  destruct (checkpoint_path_shape cfg) as (_ & _ & ->).
  unfold folder_prefix. cbv zeta.
  destruct (splitroot_root (ckpt_folder cfg)) as (Hs & Hrel & Habs).
  unfold pathlib.root, pathlib.parts, pathlib.joined.
  cbn [pathlib.Path pathlib.raw_paths foldl].
  destruct (pathlib.starts_with_sep (ckpt_folder cfg)) eqn:Ea.
  - specialize (Habs eq_refl).
    destruct (filter _ _);
      rewrite ?append_assoc, starts_with_sep_app by exact Habs; exact Hs.
  - rewrite (Hrel eq_refl).
    destruct (filter _ _) as [|x xs] eqn:Ef.
    + reflexivity.
    + assert (Hx : x ∈ filter (fun x => pathlib.is_part x = true)
                       (pathlib.split_sep
                          (snd (pathlib.splitroot (ckpt_folder cfg)))))
        by (rewrite Ef; left).
      apply list_elem_of_filter in Hx as [Hp Hin].
      pose proof (split_sep_all_no_sep
                    (snd (pathlib.splitroot (ckpt_folder cfg)))) as F.
      rewrite Forall_forall in F. specialize (F _ Hin).
      assert (Hne : x <> EmptyString) by (intros ->; discriminate Hp).
      rewrite append_nil_l, !append_assoc.
      rewrite starts_with_sep_app.
      * rewrite starts_with_sep_concat by exact Hne. now apply no_sep_starts.
      * destruct xs; [exact Hne |].
        change (String.concat "/" (x :: s :: xs))
          with (x +:+ "/" +:+ String.concat "/" (s :: xs)).
        destruct x; [contradiction | discriminate].
Qed.

(** ** [make_strategy] when the checkpoint IO cannot be made *)

(** In all three branches the checkpoint IO is asked of the model before
    any strategy is built: when [model.make_checkpoint_io] raises,
    [make_strategy] raises that same exception after this one call, and no
    strategy constructor is called, whatever the strategy string. *)
Theorem make_strategy_checkpoint_io_raises
    (s : string) (model : HFAutoModelForCausalLM) (devices num_nodes : Z)
    (adapter_only : option bool) (w : World) (st : State) (e : PyExn) :
  raises w (calls st)
    (call_make_checkpoint_io model (default false adapter_only)) = Some e ->
  make_strategy s model devices num_nodes adapter_only w st
  = ({| calls := calls st ++
                 [call_make_checkpoint_io model (default false adapter_only)];
        environ := environ st |}, Raised e).
Proof.
  intros H. unfold make_strategy, make_checkpoint_io.
  destruct (s =? "ddp")%string; [| destruct (s =? "fsdp2")%string];
    apply bind_raised; unfold ext; now rewrite H.
Qed.

Lemma make_strategy_checkpoint_io_raises_witness :
  let model := {| hf_model_name := "no-such/model" |} in
  let e := {| exn_class := "OSError"; exn_msg := "no-such/model" |} in
  let w := {| raises := fun _ c =>
                match c with
                | call_make_checkpoint_io _ _ => Some e
                | _ => None
                end;
              callback_subdir := EmptyString |} in
  raises w [] (call_make_checkpoint_io model false) = Some e /\
  make_strategy "fsdp2" model 2 1 None w (init ∅)
  = ({| calls := [call_make_checkpoint_io model false]; environ := ∅ |},
     Raised e).
Proof.
  intros model e w. split; [reflexivity |].
  exact (make_strategy_checkpoint_io_raises "fsdp2" model 2 1 None w (init ∅)
           e eq_refl).
Defined.
